(** * TEMPer2 protocol layer (comm.c): a shallow embedding and its properties

    The development follows comm.c function by function.  Integers of the C
    program are mathematical integers with the conversions of the program
    written out, unsigned-char buffers are lists of bytes, [float] and
    [double] values are IEEE-754 binary32 and binary64 numbers in the
    executable specification of the Standard Library ([SpecFloat]), and the
    calls into libusb and libc are steps of a state monad over a world that
    records the calls made and the text printed. *)

From Stdlib Require Import ZArith List Bool String Lia QArith.
From Stdlib Require Import Floats.SpecFloat.
From Stdlib Require Strings.Byte.
From Stdlib Require Import Init.Byte.
Import ListNotations.

Local Open Scope Z_scope.

(** ** C integer conversions *)

Module CInt.

(** Conversion of an integer to an unsigned type of [w] bits. *)
Definition to_unsigned (w : Z) (x : Z) : Z := x mod 2 ^ w.

(** Conversion of an integer to a signed type of [w] bits (two's
    complement, as gcc and clang define it). *)
Definition to_signed (w : Z) (x : Z) : Z :=
  let r := x mod 2 ^ w in
  if r <? 2 ^ (w - 1) then r else r - 2 ^ w.

(** The value of an [unsigned char]. *)
Definition of_byte (b : byte) : Z := Z.of_N (Byte.to_N b).

(** Conversion of an [int] to [unsigned char], as in [buf[0] = a]. *)
Definition to_byte (x : Z) : byte :=
  match Byte.of_N (Z.to_N (to_unsigned 8 x)) with
  | Some b => b
  | None => x00
  end.

(** A value held in an [int]: every libusb call of comm.c returns one. *)
Definition int (x : Z) : Z := to_signed 32 x.

(** Conversion to [size_t], the type of [sizeof(buf)] (64 bits on the
    Linux targets of the program); [ret != sizeof(buf)] converts [ret]. *)
Definition size_t (x : Z) : Z := to_unsigned 64 x.

(** The truth value of a scalar in a condition. *)
Definition truthy (x : Z) : bool := negb (x =? 0).

End CInt.

(** ** IEEE-754 arithmetic of the C types [float] and [double] *)

Module CFloat.

Definition float := spec_float.
Definition double := spec_float.

Definition prec32 : Z := 24.
Definition emax32 : Z := 128.
Definition prec64 : Z := 53.
Definition emax64 : Z := 1024.

(** [(float) z] for an integer [z]. *)
Definition float_of_int (z : Z) : float :=
  binary_normalize prec32 emax32 z 0 false.

(** A [double] literal with an integral value, such as [125.0]. *)
Definition double_lit (z : Z) : double :=
  binary_normalize prec64 emax64 z 0 false.

(** Re-rounding of a number to a format; used by both conversions. *)
Definition convert (prec emax : Z) (x : spec_float) : spec_float :=
  match x with
  | S754_finite s m e =>
      binary_normalize prec emax (cond_Zopp s (Zpos m)) e s
  | _ => x
  end.

(** The usual arithmetic conversion of a [float] operand to [double]. *)
Definition double_of_float (x : float) : double := convert prec64 emax64 x.

(** Conversion of a [double] to [float], as in [return] of a [double]
    expression from a function returning [float]. *)
Definition float_of_double (x : double) : float := convert prec32 emax32 x.

Definition dmul : double -> double -> double := SFmul prec64 emax64.
Definition ddiv : double -> double -> double := SFdiv prec64 emax64.

(** The rational number a finite floating-point number denotes. *)
Definition to_Q (x : spec_float) : option Q :=
  match x with
  | S754_zero _ => Some 0%Q
  | S754_finite s m e =>
      Some (inject_Z (cond_Zopp s (Zpos m)) * Qpower (2 # 1) e)%Q
  | _ => None
  end.

(** Structural equality of floating-point numbers (distinguishes the
    two zeros). *)
Definition eqb (x y : spec_float) : bool :=
  match x, y with
  | S754_zero s, S754_zero s' => Bool.eqb s s'
  | S754_infinity s, S754_infinity s' => Bool.eqb s s'
  | S754_nan, S754_nan => true
  | S754_finite s m e, S754_finite s' m' e' =>
      Bool.eqb s s' && Pos.eqb m m' && Z.eqb e e'
  | _, _ => false
  end.

End CFloat.

Import CFloat.

(** ** Data model *)

(** [struct Product]. *)
Record Product := {
  vendor : Z;
  id : Z;
  name : string
}.

(** [ProductList]; the entry for 0x1130:0x660c is commented out in the
    source and is therefore not in the table. *)
Definition ProductList : list Product :=
  [ {| vendor := 0x0c45; id := 0x7401; name := "RDing TEMPer2V1.3" |};
    {| vendor := 0x0c45; id := 0x7402; name := "RDing TEMPerHumiV1.1" |} ].

Definition ProductCount : Z := Z.of_nat (List.length ProductList).

(** libusb-0.1's [struct usb_device], as far as comm.c reads it: the two
    identifiers of the descriptor.  [dev_addr] stands for the address of the
    node in libusb's list, which is what a [struct usb_device *] is. *)
Record usb_device := {
  dev_addr : Z;
  idVendor : Z;
  idProduct : Z
}.

(** [struct usb_bus]: the devices on the bus, in the order of the [next]
    links. *)
Record usb_bus := {
  devices : list usb_device
}.

(** A non-null [usb_dev_handle *]. *)
Definition usb_dev_handle := Z.

(** [struct Temper].  [handle] is never null in a [Temper] that
    [TemperCreate] returns. *)
Record Temper := {
  device : usb_device;
  handle : usb_dev_handle;
  debug : Z;
  timeout : Z;
  product : Product
}.

(** Modelled from the spec: comm.h, which declares [struct TemperData], is
    not among the sources; the spec gives a reading two floating-point
    fields, tempA and tempB. *)
Record TemperData := {
  tempA : float;
  tempB : float
}.

(** ** Reading decoder *)

(** [int16_t word = ((int8_t)high << 8) | low;] *)
Definition temper_word (high low : byte) : Z :=
  CInt.to_signed 16
    (Z.lor (Z.shiftl (CInt.to_signed 8 (CInt.of_byte high)) 8)
           (CInt.of_byte low)).

(** [TemperByteToCelcius]: the calibration offset is compiled out
    ([#if 0]), so [t] is not read. *)
Definition TemperByteToCelcius (t : Temper) (high low : byte) : float :=
  let word := temper_word high low in
  float_of_double
    (dmul (double_of_float (float_of_int word))
          (ddiv (double_lit 125) (double_lit 32000))).

(** ** The world outside comm.c: libusb-0.1, errno and the standard streams *)

(** The libusb calls of comm.c, with their arguments. *)
Inductive usb_call :=
| Call_usb_open (dev : usb_device)
| Call_usb_close (h : usb_dev_handle)
| Call_usb_detach_kernel_driver_np (h : usb_dev_handle) (interface : Z)
| Call_usb_set_configuration (h : usb_dev_handle) (configuration : Z)
| Call_usb_claim_interface (h : usb_dev_handle) (interface : Z)
| Call_usb_control_msg (h : usb_dev_handle)
    (requesttype request value index : Z) (bytes : list byte) (size : Z)
    (timeout_ms : Z)
| Call_usb_interrupt_read (h : usb_dev_handle) (ep : Z) (size : Z)
    (timeout_ms : Z).

(** An argument of [printf]. *)
Inductive printf_arg :=
| arg_int (z : Z)
| arg_str (s : string)
| arg_strerror (e : Z)
| arg_beyond_buffer.

(** What the USB host stack answers.  Every answer may depend on all calls
    made before it ([list usb_call], oldest first), so a host is an arbitrary
    deterministic device and kernel; it cannot see what the program prints.
    [host_open] answers [None] for a null handle; [host_detach] answers the
    return value and the value errno has afterwards; [host_interrupt_read]
    answers the return value and the bytes it stored at the start of the
    buffer. *)
Record usb_host := {
  host_busses : list usb_bus;
  host_open : list usb_call -> usb_device -> option usb_dev_handle;
  host_detach : list usb_call -> usb_dev_handle -> Z -> Z * Z;
  host_set_configuration : list usb_call -> usb_dev_handle -> Z -> Z;
  host_claim_interface : list usb_call -> usb_dev_handle -> Z -> Z;
  host_control_msg :
    list usb_call -> usb_dev_handle -> Z -> Z -> Z -> Z -> list byte -> Z ->
    Z -> Z;
  host_interrupt_read :
    list usb_call -> usb_dev_handle -> Z -> Z -> Z -> Z * list byte
}.

Record world := {
  calls : list usb_call;
  stdout : list (string * list printf_arg);
  stderr : list (string * Z);
  errno : Z
}.

(** [ENODATA] of Linux's errno.h. *)
Definition ENODATA : Z := 61.

(** *** The monad of comm.c's effects *)

Definition M (A : Type) : Type := world -> A * world.

Definition ret {A} (a : A) : M A := fun w => (a, w).

Definition bind {A B} (m : M A) (k : A -> M B) : M B :=
  fun w => let (a, w') := m w in k a w'.

Declare Scope comm_scope.
Delimit Scope comm_scope with comm.
Notation "x <- m ;; k" := (bind m (fun x => k))
  (at level 61, m at next level, right associativity) : comm_scope.
Notation "m ;; k" := (bind m (fun _ => k))
  (at level 61, right associativity) : comm_scope.
Local Open Scope comm_scope.

(** [if (c) { m }]. *)
Definition when (c : bool) (m : M unit) : M unit :=
  if c then m else ret tt.

(** [a || b] with C's short-circuit evaluation. *)
Definition orelse (a b : M bool) : M bool :=
  x <- a ;; if x then ret true else b.

Definition record_call (c : usb_call) (w : world) : world :=
  {| calls := calls w ++ [c]; stdout := stdout w; stderr := stderr w;
     errno := errno w |}.

Definition printf (fmt : string) (args : list printf_arg) : M unit :=
  fun w => (tt, {| calls := calls w; stdout := stdout w ++ [(fmt, args)];
                   stderr := stderr w; errno := errno w |}).

(** [perror] prints its argument and the message of the current errno. *)
Definition perror (msg : string) : M unit :=
  fun w => (tt, {| calls := calls w; stdout := stdout w;
                   stderr := stderr w ++ [(msg, errno w)];
                   errno := errno w |}).

Definition get_errno : M Z := fun w => (errno w, w).

Section Libusb.

Variable host : usb_host.

Definition usb_get_busses : M (list usb_bus) := ret (host_busses host).

Definition usb_open (dev : usb_device) : M (option usb_dev_handle) :=
  fun w => (host_open host (calls w) dev, record_call (Call_usb_open dev) w).

Definition usb_close (h : usb_dev_handle) : M unit :=
  fun w => (tt, record_call (Call_usb_close h) w).

Definition usb_detach_kernel_driver_np (h : usb_dev_handle) (interface : Z)
  : M Z :=
  fun w =>
    let (r, e) := host_detach host (calls w) h interface in
    (CInt.int r,
     {| calls := calls w ++ [Call_usb_detach_kernel_driver_np h interface];
        stdout := stdout w; stderr := stderr w; errno := e |}).

Definition usb_set_configuration (h : usb_dev_handle) (configuration : Z)
  : M Z :=
  fun w => (CInt.int (host_set_configuration host (calls w) h configuration),
            record_call (Call_usb_set_configuration h configuration) w).

Definition usb_claim_interface (h : usb_dev_handle) (interface : Z) : M Z :=
  fun w => (CInt.int (host_claim_interface host (calls w) h interface),
            record_call (Call_usb_claim_interface h interface) w).

Definition usb_control_msg (h : usb_dev_handle)
    (requesttype request value index : Z) (bytes : list byte) (size : Z)
    (timeout_ms : Z) : M Z :=
  fun w =>
    (CInt.int (host_control_msg host (calls w) h requesttype request value
                 index bytes size timeout_ms),
     record_call (Call_usb_control_msg h requesttype request value index
                    bytes size timeout_ms) w).

(** The bytes the host stores replace the start of the buffer; the host
    stores at most [size] bytes and the rest of the buffer keeps its
    content. *)
Definition store_prefix (data buf : list byte) : list byte :=
  data ++ skipn (List.length data) buf.

Definition usb_interrupt_read (h : usb_dev_handle) (ep : Z)
    (buf : list byte) (size : Z) (timeout_ms : Z) : M (Z * list byte) :=
  fun w =>
    let (r, data) := host_interrupt_read host (calls w) h ep size timeout_ms in
    ((CInt.int r,
      store_prefix (firstn (Nat.min (Z.to_nat size) (List.length buf)) data)
                   buf),
     record_call (Call_usb_interrupt_read h ep size timeout_ms) w).

End Libusb.

(** ** comm.c *)

Section Comm.

Variable host : usb_host.

(** Lines 101-118 and 119-135 of [TemperCreate]: the same statements for
    interface 0 and for interface 1.  Nothing but [printf] depends on
    [ret] and [errno]. *)
Definition detach_kernel_driver (t : Temper) (interface : Z) : M unit :=
  r <- usb_detach_kernel_driver_np host (handle t) interface ;;
  if CInt.truthy r then
    e <- get_errno ;;
    if e =? ENODATA then
      when (CInt.truthy (debug t)) (printf "Device already detached\n" [])
    else
      when (CInt.truthy (debug t))
        (printf "Detach failed: %s[%d]\n" [arg_strerror e; arg_int e] ;;
         printf "Continuing anyway\n" [])
  else
    when (CInt.truthy (debug t)) (printf "detach successful\n" []).

(** [TemperCreate].  [None] is the null pointer.  [calloc] and [free] are
    not modelled: a [Temper] is a value here. *)
Definition TemperCreate (dev : usb_device) (timeout' debug' : Z)
    (product' : Product) : M (option Temper) :=
  when (CInt.truthy debug')
    (printf "Temper device %s (%04x:%04x)\n"
       [arg_str (name product'); arg_int (vendor product');
        arg_int (id product')]) ;;
  h <- usb_open host dev ;;
  match h with
  | None => ret None
  | Some h =>
      let t := {| device := dev; handle := h; debug := debug';
                  timeout := timeout'; product := product' |} in
      when (CInt.truthy (debug t))
        (printf "Trying to detach kernel driver\n" []) ;;
      detach_kernel_driver t 0 ;;
      detach_kernel_driver t 1 ;;
      failed <-
        orelse (c <- usb_set_configuration host (handle t) 1 ;; ret (c <? 0))
          (orelse (c <- usb_claim_interface host (handle t) 0 ;;
                   ret (c <? 0))
                  (c <- usb_claim_interface host (handle t) 1 ;;
                   ret (CInt.truthy c))) ;;
      if failed then
        usb_close (handle t) ;;
        ret None
      else ret (Some t)
  end.

(** The condition of lines 164-165 on the two identifiers of a device. *)
Definition ids_match (idVendor' idProduct' : Z) (p : Product) : bool :=
  (idVendor' =? vendor p) && (idProduct' =? id p).

Definition product_matches (dev : usb_device) (p : Product) : bool :=
  ids_match (idVendor dev) (idProduct dev) p.

(** The loop over [ProductList] (lines 163-176), from entry [ps] on, with
    the counter at [n].  [inl r]: the function returned [r]; [inr n']: the
    loop ended with the counter at [n'].  The counter is an [int] that the
    loop leaves far below [2^31] on any real host. *)
Fixpoint scan_products (deviceNum timeout' debug' : Z) (dev : usb_device)
    (ps : list Product) (n : Z) : M (option Temper + Z) :=
  match ps with
  | [] => ret (inr n)
  | p :: ps' =>
      if product_matches dev p then
        when (CInt.truthy debug')
          (printf "Found deviceNum %d\n" [arg_int n]) ;;
        if n =? deviceNum then
          r <- TemperCreate dev timeout' debug' p ;;
          ret (inl r)
        else scan_products deviceNum timeout' debug' dev ps' (n + 1)
      else scan_products deviceNum timeout' debug' dev ps' n
  end.

(** The loop over the devices of a bus (lines 157-177). *)
Fixpoint scan_devices (deviceNum timeout' debug' : Z)
    (devs : list usb_device) (n : Z) : M (option Temper + Z) :=
  match devs with
  | [] => ret (inr n)
  | dev :: devs' =>
      when (CInt.truthy debug')
        (printf "Found device: %04x:%04x\n"
           [arg_int (idVendor dev); arg_int (idProduct dev)]) ;;
      r <- scan_products deviceNum timeout' debug' dev ProductList n ;;
      match r with
      | inl t => ret (inl t)
      | inr n' => scan_devices deviceNum timeout' debug' devs' n'
      end
  end.

(** The loop over the busses (lines 154-178). *)
Fixpoint scan_busses (deviceNum timeout' debug' : Z)
    (busses : list usb_bus) (n : Z) : M (option Temper + Z) :=
  match busses with
  | [] => ret (inr n)
  | bus :: busses' =>
      r <- scan_devices deviceNum timeout' debug' (devices bus) n ;;
      match r with
      | inl t => ret (inl t)
      | inr n' => scan_busses deviceNum timeout' debug' busses' n'
      end
  end.

(** [TemperCreateFromDeviceNumber]. *)
Definition TemperCreateFromDeviceNumber (deviceNum timeout' debug' : Z)
  : M (option Temper) :=
  busses <- usb_get_busses host ;;
  r <- scan_busses deviceNum timeout' debug' busses 0 ;;
  match r with
  | inl t => ret t
  | inr _ => ret None
  end.

(** [TemperFree]. *)
Definition TemperFree (t : option Temper) : M unit :=
  match t with
  | Some t => usb_close (handle t)
  | None => ret tt
  end.

(** [unsigned char buf[8+8*8]; bzero(buf, sizeof(buf));] *)
Definition command_buf_size : nat := 8 + 8 * 8.

(** [buf[i] = v;] for [i] inside the array. *)
Fixpoint store (buf : list byte) (i : nat) (v : byte) : list byte :=
  match buf, i with
  | [], _ => []
  | _ :: buf', O => v :: buf'
  | b :: buf', S i' => b :: store buf' i' v
  end.

(** [TemperSendCommand8]. *)
Definition TemperSendCommand8 (t : Temper) (a b c d e f g h : Z) : M Z :=
  let buf := repeat x00 command_buf_size in
  let buf := store buf 0 (CInt.to_byte a) in
  let buf := store buf 1 (CInt.to_byte b) in
  let buf := store buf 2 (CInt.to_byte c) in
  let buf := store buf 3 (CInt.to_byte d) in
  let buf := store buf 4 (CInt.to_byte e) in
  let buf := store buf 5 (CInt.to_byte f) in
  let buf := store buf 6 (CInt.to_byte g) in
  let buf := store buf 7 (CInt.to_byte h) in
  when (CInt.truthy (debug t))
    (printf
       "sending bytes %02x, %02x, %02x, %02x, %02x, %02x, %02x, %02x (buffer len = %d)\n"
       [arg_int a; arg_int b; arg_int c; arg_int d; arg_int e; arg_int f;
        arg_int g; arg_int h; arg_int (Z.of_nat (List.length buf))]) ;;
  r <- usb_control_msg host (handle t) 0x21 9 0x200 0x01 buf
         (Z.of_nat (List.length buf)) (timeout t) ;;
  if negb (CInt.size_t r =? Z.of_nat (List.length buf)) then
    perror "usb_control_msg failed" ;;
    ret (-1)
  else ret 0.

(** [TemperSendCommand2]. *)
Definition TemperSendCommand2 (t : Temper) (a b : Z) : M Z :=
  let buf := repeat x00 command_buf_size in
  let buf := store buf 0 (CInt.to_byte a) in
  let buf := store buf 1 (CInt.to_byte b) in
  when (CInt.truthy (debug t))
    (printf "sending bytes %02x, %02x (buffer len = %d)\n"
       [arg_int a; arg_int b; arg_int (Z.of_nat (List.length buf))]) ;;
  r <- usb_control_msg host (handle t) 0x21 9 0x201 0x00 buf
         (Z.of_nat (List.length buf)) (timeout t) ;;
  if negb (CInt.size_t r =? Z.of_nat (List.length buf)) then
    perror "usb_control_msg failed" ;;
    ret (-1)
  else ret 0.

(** The loop of lines 259-262, from [i] on, for [k] more rounds.  Reading
    [buf[i]] past the end of the array has no defined value; the host
    never answers more bytes than it was asked for. *)
Fixpoint dump_bytes (buf : list byte) (i : nat) (k : nat) : M unit :=
  match k with
  | O => ret tt
  | S k' =>
      printf "%02x "
        [match nth_error buf i with
         | Some b => arg_int (CInt.of_byte b)
         | None => arg_beyond_buffer
         end] ;;
      when ((Z.of_nat i + 1) mod 8 =? 0) (printf "\n" []) ;;
      dump_bytes buf (S i) k'
  end.

(** [TemperInterruptRead]: the result is the return value and the buffer
    as the call leaves it.  [len] is an [unsigned int]; libusb's size
    parameter is an [int], so the call converts it. *)
Definition TemperInterruptRead (t : Temper) (buf : list byte) (len : Z)
  : M (Z * list byte) :=
  when (CInt.truthy (debug t)) (printf "interrupt read\n" []) ;;
  rb <- usb_interrupt_read host (handle t) 0x82 buf (CInt.int len)
          (timeout t) ;;
  when (CInt.truthy (debug t))
    (printf "receiving %d bytes\n" [arg_int (fst rb)] ;;
     dump_bytes (snd rb) 0 (Z.to_nat (fst rb)) ;;
     printf "\n" []) ;;
  ret rb.

(** [data->tempA = v;] and [data->tempB = v;] *)
Definition set_tempA (v : float) (data : TemperData) : TemperData :=
  {| tempA := v; tempB := tempB data |}.
Definition set_tempB (v : float) (data : TemperData) : TemperData :=
  {| tempA := tempA data; tempB := v |}.

(** [buf[i]] for an index inside the array. *)
Definition at_index (buf : list byte) (i : nat) : byte := nth i buf x00.

(** [TemperGetData].  [stack_buf] is what the eight bytes of the automatic
    array [buf] hold when the function is entered: the array is not
    initialised.  The result is the return value and the structure
    [data] points to as the call leaves it. *)
Definition TemperGetData (t : Temper) (data : TemperData)
    (stack_buf : list byte) : M (Z * TemperData) :=
  rb <- TemperInterruptRead t stack_buf 8 ;;
  let buf := snd rb in
  let data :=
    set_tempA (TemperByteToCelcius t (at_index buf 2) (at_index buf 3)) data in
  let data :=
    set_tempB (TemperByteToCelcius t (at_index buf 4) (at_index buf 5)) data in
  ret (fst rb, data).

End Comm.

(** ** The spec's wording of the decoder, for comparison with the code *)

(** The spec's [celsius = word * 125.0 / 32000.0], evaluated as C evaluates
    that expression for a [float] result: left to right, in [double]. *)
Definition spec_celsius (word : Z) : float :=
  float_of_double
    (ddiv (dmul (double_of_float (float_of_int word)) (double_lit 125))
          (double_lit 32000)).

(** The spec's [word * 125 / 32000] as a rational number. *)
Definition spec_celsius_Q (word : Z) : Q :=
  (inject_Z word * (125 # 1) / (32000 # 1))%Q.

(** The spec's [(sign_extend(high) << 8) | low]. *)
Definition spec_word (high low : byte) : Z :=
  let h := CInt.of_byte high in
  let signedHigh := if h <? 128 then h else h - 256 in
  Z.lor (Z.shiftl signedHigh 8) (CInt.of_byte low).

(** ** Observations on worlds and runs *)

(** [w'] has the calls, the stderr text and the errno of [w]. *)
Definition same_but_stdout (w w' : world) : Prop :=
  calls w' = calls w /\ stderr w' = stderr w /\ errno w' = errno w.

(** What a run leaves behind apart from stdout: the libusb calls made and
    the text on stderr. *)
Definition visible (w : world) : list usb_call * list (string * Z) :=
  (calls w, stderr w).

(** Is the call a [usb_open]? *)
Definition is_open (c : usb_call) : bool :=
  match c with
  | Call_usb_open _ => true
  | _ => false
  end.

(** Is the call a [usb_close]? *)
Definition is_close (c : usb_call) : bool :=
  match c with
  | Call_usb_close _ => true
  | _ => false
  end.

(** The libusb calls of [TemperCreate] and its result, as a function of
    the calls made before it: neither the stream contents, nor errno, nor
    the answers to the detach calls, nor the debug flag take part. *)
Definition open_steps (host : usb_host) (dev : usb_device) (cs : list usb_call)
  : option usb_dev_handle * list usb_call :=
  let cs1 := cs ++ [Call_usb_open dev] in
  match host_open host cs dev with
  | None => (None, cs1)
  | Some h =>
      let cs2 := cs1 ++ [Call_usb_detach_kernel_driver_np h 0] in
      let cs3 := cs2 ++ [Call_usb_detach_kernel_driver_np h 1] in
      let cs4 := cs3 ++ [Call_usb_set_configuration h 1] in
      if CInt.int (host_set_configuration host cs3 h 1) <? 0
      then (None, cs4 ++ [Call_usb_close h])
      else
        let cs5 := cs4 ++ [Call_usb_claim_interface h 0] in
        if CInt.int (host_claim_interface host cs4 h 0) <? 0
        then (None, cs5 ++ [Call_usb_close h])
        else
          let cs6 := cs5 ++ [Call_usb_claim_interface h 1] in
          if CInt.truthy (CInt.int (host_claim_interface host cs5 h 1))
          then (None, cs6 ++ [Call_usb_close h])
          else (Some h, cs6)
  end.

(** The frame of a command: the meaningful bytes and the zero padding up to
    72 bytes. *)
Definition frame_of (front : list byte) : list byte :=
  front ++ repeat x00 (command_buf_size - List.length front).

(** The buffer after the interrupt read of [TemperGetData]: the bytes the
    host stored, then what the array held before. *)
Definition response_buf (host : usb_host) (t : Temper)
    (stack_buf : list byte) (w : world)
  : list byte :=
  store_prefix
    (firstn (Nat.min 8 (List.length stack_buf))
       (snd (host_interrupt_read host (calls w) (handle t) 0x82 8
               (timeout t))))
    stack_buf.

(** The same session with another debug flag. *)
Definition set_debug (d : Z) (t : Temper) : Temper :=
  {| device := device t; handle := handle t; debug := d;
     timeout := timeout t; product := product t |}.


(** A host with other answers to [usb_interrupt_read]. *)
Definition with_interrupt_read (host : usb_host)
    (answer : list usb_call -> usb_dev_handle -> Z -> Z -> Z -> Z * list byte)
  : usb_host :=
  {| host_busses := host_busses host;
     host_open := host_open host;
     host_detach := host_detach host;
     host_set_configuration := host_set_configuration host;
     host_claim_interface := host_claim_interface host;
     host_control_msg := host_control_msg host;
     host_interrupt_read := answer |}.

(** ** Registry lookup and the numbering of matches *)

(** The registry lookup that the loop of lines 163-176 performs for one
    device: the first entry of [ProductList] that [ids_match] accepts. *)
Definition lookup (vendorId productId : Z) : option Product :=
  find (ids_match vendorId productId) ProductList.

(** Does the registry know the device? *)
Definition registered (dev : usb_device) : bool :=
  match lookup (idVendor dev) (idProduct dev) with
  | Some _ => true
  | None => false
  end.

(** The devices in the order [TemperCreateFromDeviceNumber] visits them:
    bus after bus, and on each bus device after device. *)
Definition enumeration (host : usb_host) : list usb_device :=
  flat_map devices (host_busses host).

(** The matching devices, in enumeration order. *)
Definition matching (devs : list usb_device) : list usb_device :=
  filter registered devs.

(** The match with number [k], counting from 0. *)
Definition select (ms : list usb_device) (k : Z) : option usb_device :=
  if k <? 0 then None else nth_error ms (Z.to_nat k).

(** The outcome of running a loop of the matcher from the world [w] with
    the counter at [n], when [ms] are the matching devices the loop visits:
    either the device with number [deviceNum - n] among them is handed to
    [TemperCreate], whose result is returned, or the loop ends with the
    counter advanced by the number of matches.  Up to there only stdout
    has changed. *)
Definition scan_outcome (host : usb_host) (deviceNum timeout' debug' : Z)
    (ms : list usb_device) (n : Z) (w : world)
    (out : (option Temper + Z) * world) : Prop :=
  match select ms (deviceNum - n) with
  | Some dev =>
      exists p w0,
        lookup (idVendor dev) (idProduct dev) = Some p
        /\ same_but_stdout w w0
        /\ out = (inl (fst (TemperCreate host dev timeout' debug' p w0)),
                  snd (TemperCreate host dev timeout' debug' p w0))
  | None =>
      exists w',
        same_but_stdout w w'
        /\ out = (inr (n + Z.of_nat (List.length ms)), w')
  end.

(** ** Statements of the specification that the code is compared with *)

(** The registry with the names the specification gives the two products:
    for comparison with [ProductList]. *)
Definition spec_product_names : list (Z * Z * string) :=
  [ (0x0c45, 0x7401, "TEMPer2V1.3"%string);
    (0x0c45, 0x7402, "TEMperHumiV1.1"%string) ].

(** The name the specification's table gives a pair, if any. *)
Definition spec_lookup_name (vendorId productId : Z) : option string :=
  option_map snd
    (find (fun e => (vendorId =? fst (fst e)) && (productId =? snd (fst e)))
       spec_product_names).

(** The specification's statement that a short read leaves no decoded
    reading behind: for comparison with what [TemperGetData] does. *)
Definition short_read_is_not_decoded : Prop :=
  forall host t data stack_buf w,
    fst (fst (TemperGetData host t data stack_buf w)) < 8 ->
    snd (fst (TemperGetData host t data stack_buf w)) = data.


(** ** Exhaustive checks of the decoder over all byte pairs *)

(** The byte with value [n], for [n] below 256. *)
Definition byte_of_nat (n : nat) : byte :=
  match Byte.of_nat n with
  | Some b => b
  | None => x00
  end.

(** The 256 bytes. *)
Definition all_bytes : list byte := map byte_of_nat (seq 0 256).

(** A session, for the runs of the examples. *)
Definition some_temper : Temper :=
  {| device := {| dev_addr := 1; idVendor := 0x0c45; idProduct := 0x7401 |};
     handle := 1; debug := 0; timeout := 1000;
     product := {| vendor := 0x0c45; id := 0x7401;
                   name := "RDing TEMPer2V1.3" |} |}.

(** The word of the code is the word of the specification, fits sixteen
    bits and is [256 * (int8_t)high + low]. *)
Definition word_check (high low : byte) : bool :=
  let w := temper_word high low in
  (w =? spec_word high low) && (-32768 <=? w) && (w <? 32768)
  && (w =? 256 * CInt.to_signed 8 (CInt.of_byte high) + CInt.of_byte low).

(** The result of the code is the number of the specification, as a
    floating-point number and as a rational number. *)
Definition celsius_check (high low : byte) : bool :=
  let c := TemperByteToCelcius some_temper high low in
  CFloat.eqb c (spec_celsius (temper_word high low))
  && match to_Q c with
     | Some q => Qeq_bool q (spec_celsius_Q (temper_word high low))
     | None => false
     end.

(** ** Hosts and worlds of the examples *)

(** The world before the first call. *)
Definition boot : world :=
  {| calls := []; stdout := []; stderr := []; errno := 0 |}.

(** A host with no device listed: every open, configuration and claim
    succeeds, no kernel driver is attached (ENODATA), control transfers
    accept every byte, and interrupt reads time out without storing a
    byte. *)
Definition idle_host : usb_host :=
  {| host_busses := [];
     host_open := fun _ dev => Some (100 + dev_addr dev);
     host_detach := fun _ _ _ => (-1, ENODATA);
     host_set_configuration := fun _ _ _ => 0;
     host_claim_interface := fun _ _ _ => 0;
     host_control_msg := fun _ _ _ _ _ _ _ size _ => size;
     host_interrupt_read := fun _ _ _ _ _ => (-110, []) |}.

(** A host whose interrupt read stores four bytes only. *)
Definition short_read_host : usb_host :=
  with_interrupt_read idle_host (fun _ _ _ _ _ => (4, [x80; x80; x01; x90])).


(** What the array [buf] of [TemperGetData] may hold when it is entered. *)
Definition stale_stack : list byte := [x11; x22; x33; x44; xff; x70; x77; x88].

(** The structure of the caller before the poll. *)
Definition no_reading : TemperData :=
  {| tempA := S754_zero false; tempB := S754_zero false |}.

(** Two busses with five devices, three of them TEMPer devices. *)
Definition three_sensor_host : usb_host :=
  {| host_busses :=
       [ {| devices :=
              [ {| dev_addr := 1; idVendor := 0x1130; idProduct := 0x660c |};
                {| dev_addr := 2; idVendor := 0x0c45; idProduct := 0x7401 |} ]
         |};
         {| devices :=
              [ {| dev_addr := 3; idVendor := 0x0c45; idProduct := 0x7402 |};
                {| dev_addr := 4; idVendor := 0x046d; idProduct := 0xc077 |};
                {| dev_addr := 5; idVendor := 0x0c45; idProduct := 0x7401 |} ]
         |} ];
     host_open := host_open idle_host;
     host_detach := host_detach idle_host;
     host_set_configuration := host_set_configuration idle_host;
     host_claim_interface := host_claim_interface idle_host;
     host_control_msg := host_control_msg idle_host;
     host_interrupt_read := host_interrupt_read idle_host |}.

(** ** The lines of the debug dump *)

(** The line [TemperInterruptRead] prints for [buf[i]]. *)
Definition byte_line (buf : list byte) (i : nat)
  : string * list printf_arg :=
  ("%02x "%string,
   [match nth_error buf i with
    | Some b => arg_int (CInt.of_byte b)
    | None => arg_beyond_buffer
    end]).

(** Is the line the dump of a byte? *)
Definition is_byte_line (l : string * list printf_arg) : bool :=
  String.eqb (fst l) "%02x ".

(** The lines of a dump of the first [n] bytes, eight bytes to a row. *)
Definition dump_rows (buf : list byte) (n : nat)
  : list (string * list printf_arg) :=
  flat_map
    (fun i =>
       byte_line buf i
       :: (if (Z.of_nat i + 1) mod 8 =? 0 then [("\n"%string, [])] else []))
    (seq 0 n).

(** * Properties *)

(** ** Bytes: enumeration, used for the exhaustive checks of the decoder *)

Lemma all_bytes_complete (b : byte) : In b all_bytes.
Proof.
  apply in_map_iff. exists (Byte.to_nat b). split.
  - unfold byte_of_nat. now rewrite Byte.of_to_nat.
  - apply in_seq. pose proof (Byte.to_nat_bounded b). lia.
Qed.

(** A property of two bytes that holds on every pair of the enumeration
    holds on every pair. *)
Lemma for_all_byte_pairs (check : byte -> byte -> bool) :
  forallb (fun h => forallb (check h) all_bytes) all_bytes = true ->
  forall h l, check h l = true.
Proof.
  intros H h l.
  rewrite forallb_forall in H. specialize (H h (all_bytes_complete h)).
  rewrite forallb_forall in H. exact (H l (all_bytes_complete l)).
Qed.

Lemma CFloat_eqb_eq (x y : spec_float) : CFloat.eqb x y = true -> x = y.
Proof.
  destruct x, y; simpl; try discriminate; intros H.
  - apply Bool.eqb_prop in H. now subst.
  - apply Bool.eqb_prop in H. now subst.
  - reflexivity.
  - apply andb_true_iff in H as [H He]. apply andb_true_iff in H as [Hs Hm].
    apply Bool.eqb_prop in Hs. apply Pos.eqb_eq in Hm. apply Z.eqb_eq in He.
    now subst.
Qed.

(** ** Decoder *)

(** [TemperByteToCelcius] does not read its first argument. *)
Lemma TemperByteToCelcius_any_temper (t t' : Temper) (high low : byte) :
  TemperByteToCelcius t high low = TemperByteToCelcius t' high low.
Proof. reflexivity. Qed.

Lemma word_check_all (high low : byte) : word_check high low = true.
Proof.
  revert high low. apply for_all_byte_pairs. vm_cast_no_check (eq_refl true).
Qed.

Lemma celsius_check_all (high low : byte) : celsius_check high low = true.
Proof.
  revert high low. apply for_all_byte_pairs. vm_cast_no_check (eq_refl true).
Qed.

(** What [TemperInterruptRead] returns, whatever it prints. *)
Lemma TemperInterruptRead_result host t buf len w :
  fst (TemperInterruptRead host t buf len w)
  = fst (usb_interrupt_read host (handle t) 0x82 buf (CInt.int len)
           (timeout t) w).
Proof.
  unfold TemperInterruptRead, bind.
  destruct (when (CInt.truthy (debug t)) (printf "interrupt read\n" []) w)
    as [[] w1] eqn:E1.
  assert (Hc : calls w1 = calls w).
  { unfold when, printf, ret in E1.
    destruct (CInt.truthy (debug t)); inversion E1; reflexivity. }
  unfold usb_interrupt_read. rewrite Hc.
  destruct (host_interrupt_read host (calls w) (handle t) 130 (CInt.int len)
              (timeout t))
    as [r data].
  match goal with |- context [when ?c ?m ?x] =>
    destruct (when c m x) as [[] w2] end.
  reflexivity.
Qed.

Lemma TemperGetData_result host t data stack_buf w :
  fst (TemperGetData host t data stack_buf w)
  = let rb := fst (TemperInterruptRead host t stack_buf 8 w) in
    (fst rb,
     {| tempA := TemperByteToCelcius t (at_index (snd rb) 2)
                   (at_index (snd rb) 3);
        tempB := TemperByteToCelcius t (at_index (snd rb) 4)
                   (at_index (snd rb) 5) |}).
Proof.
  unfold TemperGetData, bind.
  destruct (TemperInterruptRead host t stack_buf 8 w) as [rb w1].
  reflexivity.
Qed.

(** C1: for every byte pair the decoder forms the 16-bit signed word
    [(sign_extend(high) << 8) | low] and returns [word * 125.0 / 32000.0]
    (as the C expression evaluates, and exactly the rational number
    [word * 125 / 32000]); [TemperGetData] applies it to the bytes at
    offsets (2,3) for tempA and (4,5) for tempB of the buffer the interrupt
    read leaves; (0x00,0x00) decodes to 0.0, (0x01,0x90) to 1.5625 and
    (0xFF,0x70), the word -144, to -0.5625. *)
Theorem C1_decoder_word_scale_offsets :
  (forall (t : Temper) (high low : byte),
      temper_word high low = spec_word high low
      /\ -32768 <= temper_word high low < 32768
      /\ TemperByteToCelcius t high low = spec_celsius (temper_word high low)
      /\ exists q, to_Q (TemperByteToCelcius t high low) = Some q
                   /\ (q == spec_celsius_Q (temper_word high low))%Q)
  /\ (forall host t data stack_buf w,
        let answer :=
          host_interrupt_read host (calls w) (handle t) 0x82 8 (timeout t) in
        let buf :=
          store_prefix
            (firstn (Nat.min 8 (List.length stack_buf)) (snd answer))
            stack_buf in
        let data' := snd (fst (TemperGetData host t data stack_buf w)) in
        tempA data' = TemperByteToCelcius t (at_index buf 2) (at_index buf 3)
        /\ tempB data'
           = TemperByteToCelcius t (at_index buf 4) (at_index buf 5))
  /\ (temper_word x00 x00 = 0
      /\ TemperByteToCelcius some_temper x00 x00 = S754_zero false)
  /\ (temper_word x01 x90 = 400
      /\ exists q, to_Q (TemperByteToCelcius some_temper x01 x90) = Some q
                   /\ (q == 15625 # 10000)%Q)
  /\ (temper_word xff x70 = -144
      /\ exists q, to_Q (TemperByteToCelcius some_temper xff x70) = Some q
                   /\ (q == - (5625 # 10000))%Q).
Proof.
  split; [| split; [| split; [| split]]].
  - intros t high low.
    pose proof (word_check_all high low) as Hw.
    pose proof (celsius_check_all high low) as Hc.
    unfold word_check in Hw. unfold celsius_check in Hc.
    repeat (apply andb_true_iff in Hw; destruct Hw as [Hw ?]).
    apply andb_true_iff in Hc as [Hf Hq].
    rewrite (TemperByteToCelcius_any_temper t some_temper).
    repeat split.
    + now apply Z.eqb_eq.
    + now apply Z.leb_le.
    + now apply Z.ltb_lt.
    + now apply CFloat_eqb_eq.
    + destruct (to_Q (TemperByteToCelcius some_temper high low)) as [q|];
        [| discriminate].
      exists q. split; [reflexivity | now apply Qeq_bool_iff].
  - intros host t data stack_buf w. cbv zeta.
    rewrite TemperGetData_result, TemperInterruptRead_result.
    unfold usb_interrupt_read. change (CInt.int 8) with 8.
    destruct (host_interrupt_read host (calls w) (handle t) 130 8 (timeout t))
      as [r bytes].
    split; reflexivity.
  - split; reflexivity.
  - split; [reflexivity |].
    eexists. split; [vm_compute; reflexivity | reflexivity].
  - split; [reflexivity |].
    eexists. split; [vm_compute; reflexivity | reflexivity].
Qed.

(** ** Worlds that differ in what was printed on stdout only *)

Lemma same_but_stdout_refl w : same_but_stdout w w.
Proof. repeat split. Qed.

Lemma same_but_stdout_trans w1 w2 w3 :
  same_but_stdout w1 w2 -> same_but_stdout w2 w3 -> same_but_stdout w1 w3.
Proof.
  intros (A & B & C) (A' & B' & C'). repeat split; congruence.
Qed.

Lemma printf_same fmt args w : same_but_stdout w (snd (printf fmt args w)).
Proof. repeat split. Qed.

Lemma when_printf_run c fmt args w :
  exists w', when c (printf fmt args) w = (tt, w')
             /\ same_but_stdout w w'
             /\ (c = false -> w' = w).
Proof.
  destruct c; simpl.
  - eexists. split; [reflexivity |]. split; [apply printf_same | discriminate].
  - exists w. split; [reflexivity |].
    split; [apply same_but_stdout_refl | reflexivity].
Qed.

(** ** Session open *)

Section Open.

Variable host : usb_host.

(** One detach attempt makes one libusb call and prints; its answer is
    used for nothing else. *)
Lemma detach_kernel_driver_run (t : Temper) (interface : Z) (w : world) :
  exists w',
    detach_kernel_driver host t interface w = (tt, w')
    /\ calls w'
       = calls w ++ [Call_usb_detach_kernel_driver_np (handle t) interface]
    /\ stderr w' = stderr w
    /\ (CInt.truthy (debug t) = false -> stdout w' = stdout w).
Proof.
  unfold detach_kernel_driver, bind, usb_detach_kernel_driver_np, get_errno.
  destruct (host_detach host (calls w) (handle t) interface) as [r e].
  destruct (CInt.truthy (CInt.int r)); cbn [errno].
  - destruct (e =? ENODATA); destruct (CInt.truthy (debug t)); cbn;
      eexists; (split; [reflexivity |]); cbn;
      repeat split; auto; discriminate.
  - destruct (CInt.truthy (debug t)); cbn;
      eexists; (split; [reflexivity |]); cbn;
      repeat split; auto; discriminate.
Qed.

Lemma TemperCreate_run dev timeout' debug' product' w :
  exists w',
    TemperCreate host dev timeout' debug' product' w
    = (option_map
         (fun h => {| device := dev; handle := h; debug := debug';
                      timeout := timeout'; product := product' |})
         (fst (open_steps host dev (calls w))), w')
    /\ calls w' = snd (open_steps host dev (calls w))
    /\ stderr w' = stderr w
    /\ (CInt.truthy debug' = false -> stdout w' = stdout w).
Proof.
  unfold TemperCreate, open_steps, bind.
  destruct (when_printf_run (CInt.truthy debug')
              "Temper device %s (%04x:%04x)\n"
              [arg_str (name product'); arg_int (vendor product');
               arg_int (id product')] w)
    as (w1 & E1 & (C1 & S1 & _) & Q1).
  rewrite E1. unfold usb_open at 1. rewrite C1.
  destruct (host_open host (calls w) dev) as [h|]; cbn [fst snd option_map].
  2: { eexists. split; [reflexivity |]. cbn. repeat split; try congruence.
       intros Hq. now rewrite (Q1 Hq). }
  cbn [debug handle].
  set (t := {| device := dev; handle := h; debug := debug';
               timeout := timeout'; product := product' |}).
  destruct (when_printf_run (CInt.truthy debug')
              "Trying to detach kernel driver\n" []
              (record_call (Call_usb_open dev) w1))
    as (w2 & E2 & (C2 & S2 & _) & Q2).
  rewrite E2.
  destruct (detach_kernel_driver_run t 0 w2) as (w3 & E3 & C3 & S3 & Q3).
  rewrite E3.
  destruct (detach_kernel_driver_run t 1 w3) as (w4 & E4 & C4 & S4 & Q4).
  rewrite E4.
  assert (Hc4 : calls w4
                = ((calls w ++ [Call_usb_open dev])
                     ++ [Call_usb_detach_kernel_driver_np h 0])
                    ++ [Call_usb_detach_kernel_driver_np h 1]).
  { rewrite C4, C3, C2. cbn. now rewrite C1. }
  assert (Hs4 : stderr w4 = stderr w).
  { rewrite S4, S3, S2. cbn. exact S1. }
  assert (Hq4 : CInt.truthy debug' = false -> stdout w4 = stdout w).
  { intros Hq. rewrite (Q4 Hq), (Q3 Hq), (Q2 Hq). cbn. now rewrite (Q1 Hq). }
  clear E1 E2 E3 E4. subst t. cbn [handle debug] in *.
  unfold orelse, bind, usb_set_configuration, usb_claim_interface, usb_close,
    ret, record_call.
  cbn [calls stdout stderr errno]. rewrite Hc4.
  destruct (CInt.int (host_set_configuration host _ h 1) <? 0).
  { eexists. split; [reflexivity |]. cbn. auto. }
  destruct (CInt.int (host_claim_interface host _ h 0) <? 0).
  { eexists. split; [reflexivity |]. cbn. auto. }
  destruct (CInt.truthy (CInt.int (host_claim_interface host _ h 1))).
  { eexists. split; [reflexivity |]. cbn. auto. }
  eexists. split; [reflexivity |]. cbn. auto.
Qed.

End Open.

(** The calls [open_steps] adds: after a successful [usb_open] that answers
    [h], either the session is produced and nothing was closed, or there is
    no session and the last call closed [h], the only close. *)
Lemma open_steps_shape host dev cs :
  exists new,
    snd (open_steps host dev cs) = cs ++ new
    /\ match host_open host cs dev with
       | None =>
           fst (open_steps host dev cs) = None /\ new = [Call_usb_open dev]
       | Some h =>
           exists mid,
             filter is_close mid = [] /\ filter is_open mid = []
             /\ ((fst (open_steps host dev cs) = Some h
                  /\ new = Call_usb_open dev :: mid)
                 \/ (fst (open_steps host dev cs) = None
                     /\ new = Call_usb_open dev :: mid ++ [Call_usb_close h]))
       end.
Proof.
  unfold open_steps.
  destruct (host_open host cs dev) as [h|].
  2: { exists [Call_usb_open dev]. cbn. auto. }
  destruct (CInt.int (host_set_configuration host _ h 1) <? 0).
  { eexists. split; [cbn; repeat rewrite <- app_assoc; reflexivity |].
    exists [Call_usb_detach_kernel_driver_np h 0;
            Call_usb_detach_kernel_driver_np h 1;
            Call_usb_set_configuration h 1].
    split; [reflexivity |]. split; [reflexivity | right; split; reflexivity]. }
  destruct (CInt.int (host_claim_interface host _ h 0) <? 0).
  { eexists. split; [cbn; repeat rewrite <- app_assoc; reflexivity |].
    exists [Call_usb_detach_kernel_driver_np h 0;
            Call_usb_detach_kernel_driver_np h 1;
            Call_usb_set_configuration h 1; Call_usb_claim_interface h 0].
    split; [reflexivity |]. split; [reflexivity | right; split; reflexivity]. }
  destruct (CInt.truthy (CInt.int (host_claim_interface host _ h 1))).
  { eexists. split; [cbn; repeat rewrite <- app_assoc; reflexivity |].
    exists [Call_usb_detach_kernel_driver_np h 0;
            Call_usb_detach_kernel_driver_np h 1;
            Call_usb_set_configuration h 1; Call_usb_claim_interface h 0;
            Call_usb_claim_interface h 1].
    split; [reflexivity |]. split; [reflexivity | right; split; reflexivity]. }
  eexists. split; [cbn; repeat rewrite <- app_assoc; reflexivity |].
  exists [Call_usb_detach_kernel_driver_np h 0;
          Call_usb_detach_kernel_driver_np h 1;
          Call_usb_set_configuration h 1; Call_usb_claim_interface h 0;
          Call_usb_claim_interface h 1].
  split; [reflexivity |]. split; [reflexivity | left; split; reflexivity].
Qed.

(** C2: when [usb_open] answers a handle and [TemperCreate] fails, the
    handle is closed exactly once, by the last call before the return; when
    [TemperCreate] succeeds nothing is closed and the session holds the
    handle; when [usb_open] answers no handle, [usb_open] is the only call
    and nothing is closed. *)
Theorem C2_open_closes_handle_once_on_failure :
  forall host dev timeout' debug' product' w,
    let r := fst (TemperCreate host dev timeout' debug' product' w) in
    let w' := snd (TemperCreate host dev timeout' debug' product' w) in
    exists new,
      calls w' = calls w ++ new
      /\ match host_open host (calls w) dev with
         | None =>
             r = None /\ new = [Call_usb_open dev]
             /\ filter is_close new = []
         | Some h =>
             match r with
             | Some t => handle t = h /\ filter is_close new = []
             | None =>
                 filter is_close new = [Call_usb_close h]
                 /\ exists before,
                      new = before ++ [Call_usb_close h]
                      /\ filter is_close before = []
             end
         end.
Proof.
  intros host dev timeout' debug' product' w r w'. subst r w'.
  destruct (TemperCreate_run host dev timeout' debug' product' w)
    as (w' & E & C & _).
  rewrite E. cbn [fst snd]. rewrite C.
  destruct (open_steps_shape host dev (calls w)) as (new & Hn & Hs).
  exists new. split; [exact Hn |].
  destruct (host_open host (calls w) dev) as [h|].
  - destruct Hs as (mid & Hmid & _ & [[Hr Hnew] | [Hr Hnew]]); rewrite Hr; cbn.
    + split; [reflexivity |]. subst new. cbn. exact Hmid.
    + subst new. split.
      * cbn. rewrite filter_app, Hmid. reflexivity.
      * exists (Call_usb_open dev :: mid). split; [reflexivity |].
        cbn. exact Hmid.
  - destruct Hs as [Hr Hnew]. rewrite Hr. subst new. cbn. auto.
Qed.





(** ** Command transport *)

Lemma to_byte_of_byte (b : byte) : CInt.to_byte (CInt.of_byte b) = b.
Proof. destruct b; reflexivity. Qed.

Lemma int_range (x : Z) : -2147483648 <= CInt.int x < 2147483648.
Proof.
  unfold CInt.int, CInt.to_signed.
  change (2 ^ 32) with 4294967296. change (2 ^ (32 - 1)) with 2147483648.
  pose proof (Z.mod_pos_bound x 4294967296 eq_refl).
  destruct (x mod 4294967296 <? 2147483648) eqn:E.
  - apply Z.ltb_lt in E. lia.
  - apply Z.ltb_ge in E. lia.
Qed.

(** [ret != sizeof(buf)] for an [int ret] and a 72-byte [buf]: the
    conversion of [ret] to [size_t] does not make a wrong count pass. *)
Lemma size_t_compare_72 (x : Z) :
  (CInt.size_t (CInt.int x) =? 72) = (CInt.int x =? 72).
Proof.
  pose proof (int_range x) as R. unfold CInt.size_t, CInt.to_unsigned.
  change (2 ^ 64) with 18446744073709551616.
  destruct (Z.eqb_spec (CInt.int x) 72) as [E | N].
  - rewrite E. reflexivity.
  - apply Z.eqb_neq. intros H. apply N.
    destruct (Z_lt_le_dec (CInt.int x) 0).
    + assert (CInt.int x mod 18446744073709551616
              = CInt.int x + 18446744073709551616).
      { symmetry. apply Z.mod_unique with (q := -1); lia. }
      lia.
    + rewrite Z.mod_small in H by lia. exact H.
Qed.

Ltac run_send_command w :=
  let w1 := fresh "w1" in
  let E1 := fresh "E1" in
  let Hsame := fresh "Hsame" in
  let Hquiet := fresh "Hquiet" in
  let Hcalls := fresh "Hcalls" in
  unfold bind;
  match goal with
  | |- context [when ?c (printf ?fmt ?args) w] =>
      destruct (when_printf_run c fmt args w) as (w1 & E1 & Hsame & Hquiet);
      rewrite E1; exists w1
  end;
  split; [exact Hsame |]; split; [exact Hquiet |];
  destruct Hsame as (Hcalls & _);
  unfold usb_control_msg; rewrite Hcalls; cbn [List.length repeat];
  change (Z.of_nat 72) with 72; rewrite size_t_compare_72;
  match goal with
  | |- context [CInt.int ?x =? 72] => destruct (CInt.int x =? 72)
  end; reflexivity.

Section Commands.

Variable host : usb_host.

(** One run of [TemperSendCommand8]: it prints (with the debug flag),
    makes one control transfer, and compares the answer with 72. *)
Lemma TemperSendCommand8_run t a b c d e f g h w :
  let frame :=
    frame_of [CInt.to_byte a; CInt.to_byte b; CInt.to_byte c; CInt.to_byte d;
              CInt.to_byte e; CInt.to_byte f; CInt.to_byte g; CInt.to_byte h]
  in
  exists w1,
    same_but_stdout w w1
    /\ (CInt.truthy (debug t) = false -> w1 = w)
    /\ let answer :=
         CInt.int (host_control_msg host (calls w) (handle t) 0x21 9 0x200
                     0x01 frame 72 (timeout t)) in
       let w2 :=
         record_call (Call_usb_control_msg (handle t) 0x21 9 0x200 0x01
                        frame 72 (timeout t)) w1 in
       TemperSendCommand8 host t a b c d e f g h w
       = if answer =? 72 then (0, w2)
         else (-1, snd (perror "usb_control_msg failed" w2)).
Proof.
  cbv zeta. unfold TemperSendCommand8, frame_of, command_buf_size.
  cbn [store repeat Nat.add Nat.mul Nat.sub List.length app].
  run_send_command w.
Qed.

Lemma TemperSendCommand2_run t a b w :
  let frame := frame_of [CInt.to_byte a; CInt.to_byte b] in
  exists w1,
    same_but_stdout w w1
    /\ (CInt.truthy (debug t) = false -> w1 = w)
    /\ let answer :=
         CInt.int (host_control_msg host (calls w) (handle t) 0x21 9 0x201
                     0x00 frame 72 (timeout t)) in
       let w2 :=
         record_call (Call_usb_control_msg (handle t) 0x21 9 0x201 0x00
                        frame 72 (timeout t)) w1 in
       TemperSendCommand2 host t a b w
       = if answer =? 72 then (0, w2)
         else (-1, snd (perror "usb_control_msg failed" w2)).
Proof.
  cbv zeta. unfold TemperSendCommand2, frame_of, command_buf_size.
  cbn [store repeat Nat.add Nat.mul Nat.sub List.length app].
  run_send_command w.
Qed.

End Commands.

(** C3: for all argument bytes, [TemperSendCommand8] makes exactly one
    control transfer (0x21, 9, 0x200, 0x01) whose 72-byte payload is the
    eight arguments in order followed by 64 zero bytes, [TemperSendCommand2]
    makes exactly one control transfer (0x21, 9, 0x201, 0x00) whose 72-byte
    payload is the two arguments followed by 70 zero bytes, and each returns
    0 when the transfer answers 72 and -1, after [perror], for any other
    answer, without a second transfer. *)
Theorem C3_send_command_frame_and_result :
  forall host t (a b c d e f g h : byte) w,
    let frame8 := [a; b; c; d; e; f; g; h] ++ repeat x00 64 in
    let frame2 := [a; b] ++ repeat x00 70 in
    let run8 :=
      TemperSendCommand8 host t (CInt.of_byte a) (CInt.of_byte b)
        (CInt.of_byte c) (CInt.of_byte d) (CInt.of_byte e) (CInt.of_byte f)
        (CInt.of_byte g) (CInt.of_byte h) w in
    let run2 :=
      TemperSendCommand2 host t (CInt.of_byte a) (CInt.of_byte b) w in
    let answer8 :=
      CInt.int (host_control_msg host (calls w) (handle t) 0x21 9 0x200 0x01
                  frame8 72 (timeout t)) in
    let answer2 :=
      CInt.int (host_control_msg host (calls w) (handle t) 0x21 9 0x201 0x00
                  frame2 72 (timeout t)) in
    (List.length frame8 = 72%nat
     /\ calls (snd run8)
        = calls w ++ [Call_usb_control_msg (handle t) 0x21 9 0x200 0x01
                        frame8 72 (timeout t)]
     /\ fst run8 = (if answer8 =? 72 then 0 else -1)
     /\ stderr (snd run8)
        = (if answer8 =? 72 then stderr w
           else stderr w ++ [("usb_control_msg failed"%string, errno w)]))
    /\ (List.length frame2 = 72%nat
        /\ calls (snd run2)
           = calls w ++ [Call_usb_control_msg (handle t) 0x21 9 0x201 0x00
                           frame2 72 (timeout t)]
        /\ fst run2 = (if answer2 =? 72 then 0 else -1)
        /\ stderr (snd run2)
           = (if answer2 =? 72 then stderr w
              else stderr w ++ [("usb_control_msg failed"%string, errno w)])).
Proof.
  intros host t a b c d e f g h w. cbv zeta. split.
  - destruct (TemperSendCommand8_run host t (CInt.of_byte a) (CInt.of_byte b)
                (CInt.of_byte c) (CInt.of_byte d) (CInt.of_byte e)
                (CInt.of_byte f) (CInt.of_byte g) (CInt.of_byte h) w)
      as (w1 & (Hc & Hs & He) & _ & E).
    cbv zeta in E. rewrite !to_byte_of_byte in E.
    change (frame_of [a; b; c; d; e; f; g; h])
      with ([a; b; c; d; e; f; g; h] ++ repeat x00 64) in E.
    rewrite E. split; [reflexivity |].
    destruct (CInt.int _ =? 72); cbn; rewrite Hc, Hs, ?He; auto.
  - destruct (TemperSendCommand2_run host t (CInt.of_byte a) (CInt.of_byte b)
                w) as (w1 & (Hc & Hs & He) & _ & E).
    cbv zeta in E. rewrite !to_byte_of_byte in E.
    change (frame_of [a; b]) with ([a; b] ++ repeat x00 70) in E.
    rewrite E. split; [reflexivity |].
    destruct (CInt.int _ =? 72); cbn; rewrite Hc, Hs, ?He; auto.
Qed.

(** ** Interrupt read and the per-poll reading *)

Lemma dump_bytes_run buf k : forall i w,
  exists w', dump_bytes buf i k w = (tt, w') /\ same_but_stdout w w'.
Proof.
  induction k as [| k IH]; intros i w.
  - exists w. split; [reflexivity | apply same_but_stdout_refl].
  - cbn [dump_bytes]. unfold bind. cbn [printf].
    match goal with |- context [when ?c (printf ?fmt ?args) ?x] =>
      destruct (when_printf_run c fmt args x) as (w1 & E1 & H1 & _) end.
    rewrite E1.
    destruct (IH (S i) w1) as (w2 & E2 & H2).
    exists w2. split; [exact E2 |].
    eapply same_but_stdout_trans; [| exact H2].
    eapply same_but_stdout_trans; [| exact H1].
    repeat split.
Qed.

Section Poll.

Variable host : usb_host.

Lemma TemperInterruptRead_run t buf len w :
  exists w',
    TemperInterruptRead host t buf len w
    = (fst (usb_interrupt_read host (handle t) 0x82 buf (CInt.int len)
              (timeout t) w),
       w')
    /\ calls w'
       = calls w ++ [Call_usb_interrupt_read (handle t) 0x82 (CInt.int len)
                       (timeout t)]
    /\ stderr w' = stderr w /\ errno w' = errno w.
Proof.
  unfold TemperInterruptRead, bind.
  destruct (when_printf_run (CInt.truthy (debug t)) "interrupt read\n" [] w)
    as (w1 & E1 & (C1 & S1 & N1) & _).
  rewrite E1. unfold usb_interrupt_read. rewrite C1.
  destruct (host_interrupt_read host (calls w) (handle t) 130 (CInt.int len)
              (timeout t))
    as [r data].
  cbn [fst snd]. unfold when.
  destruct (CInt.truthy (debug t)).
  - unfold bind. cbn [printf].
    match goal with |- context [dump_bytes ?b ?i ?k ?x] =>
      destruct (dump_bytes_run b k i x) as (w2 & E2 & (C2 & S2 & N2)) end.
    rewrite E2. eexists. split; [reflexivity |].
    cbn. rewrite C2, S2, N2. cbn. rewrite C1, S1, N1. auto.
  - eexists. split; [reflexivity |]. cbn. rewrite C1, S1, N1. auto.
Qed.

Lemma TemperGetData_run t data stack_buf w :
  let buf := response_buf host t stack_buf w in
  exists w',
    TemperGetData host t data stack_buf w
    = ((CInt.int (fst (host_interrupt_read host (calls w) (handle t) 0x82 8
                         (timeout t))),
        {| tempA := TemperByteToCelcius t (at_index buf 2) (at_index buf 3);
           tempB := TemperByteToCelcius t (at_index buf 4) (at_index buf 5)
        |}), w')
    /\ calls w'
       = calls w ++ [Call_usb_interrupt_read (handle t) 0x82 8 (timeout t)]
    /\ stderr w' = stderr w /\ errno w' = errno w.
Proof.
  cbv zeta. unfold TemperGetData, bind, response_buf.
  destruct (TemperInterruptRead_run t stack_buf 8 w) as (w' & E & H).
  rewrite E. exists w'. split; [| exact H].
  unfold usb_interrupt_read. change (CInt.int 8) with 8.
  destruct (host_interrupt_read host (calls w) (handle t) 130 8 (timeout t))
    as [r data']. reflexivity.
Qed.

End Poll.

(** C9: on every call [TemperGetData] returns the count the interrupt read
    answered, whatever it is, and writes both fields from bytes 2..5 of the
    buffer as the read leaves it; what the structure held before does not
    survive; when the read stores nothing (a timeout or an error) the fields
    are decoded from what the uninitialised array happened to hold. *)
Theorem C9_get_data_always_writes_both_fields :
  forall host t data stack_buf w,
    (let buf := response_buf host t stack_buf w in
     let run := TemperGetData host t data stack_buf w in
     fst (fst run)
     = CInt.int (fst (host_interrupt_read host (calls w) (handle t) 0x82 8
                        (timeout t)))
     /\ tempA (snd (fst run))
        = TemperByteToCelcius t (at_index buf 2) (at_index buf 3)
     /\ tempB (snd (fst run))
        = TemperByteToCelcius t (at_index buf 4) (at_index buf 5)
     /\ forall other : TemperData,
          snd (fst (TemperGetData host t other stack_buf w)) = snd (fst run))
    /\ (forall (failure : Z),
          let run :=
            TemperGetData
              (with_interrupt_read host (fun _ _ _ _ _ => (failure, [])))
              t data stack_buf w in
          fst (fst run) = CInt.int failure
          /\ tempA (snd (fst run))
             = TemperByteToCelcius t (at_index stack_buf 2)
                 (at_index stack_buf 3)
          /\ tempB (snd (fst run))
             = TemperByteToCelcius t (at_index stack_buf 4)
                 (at_index stack_buf 5)).
Proof.
  intros host t data stack_buf w. split.
  - cbv zeta.
    destruct (TemperGetData_run host t data stack_buf w) as (w' & E & _).
    cbv zeta in E. rewrite E. cbn [fst snd tempA tempB].
    repeat split. intros other.
    destruct (TemperGetData_run host t other stack_buf w) as (w'' & E' & _).
    cbv zeta in E'. rewrite E'. reflexivity.
  - intros failure. cbv zeta.
    match goal with |- context [TemperGetData ?h _ _ _ _] =>
      destruct (TemperGetData_run h t data stack_buf w) as (w' & E & _) end.
    cbv zeta in E. rewrite E. cbn [fst snd tempA tempB].
    unfold response_buf. cbn [with_interrupt_read host_interrupt_read snd].
    rewrite firstn_nil. repeat split.
Qed.

(** ** The match with a given number *)

Lemma select_nil k : select [] k = None.
Proof. unfold select. destruct (k <? 0); [| destruct (Z.to_nat k)]; reflexivity. Qed.

Lemma select_cons_0 d ms : select (d :: ms) 0 = Some d.
Proof. reflexivity. Qed.

Lemma select_cons_next d ms k : k <> 0 -> select (d :: ms) k = select ms (k - 1).
Proof.
  intros Hk. unfold select.
  destruct (Z.ltb_spec k 0) as [Hneg | Hpos].
  - destruct (Z.ltb_spec (k - 1) 0); [reflexivity | lia].
  - destruct (Z.ltb_spec (k - 1) 0); [lia |].
    replace (Z.to_nat k) with (S (Z.to_nat (k - 1))) by lia. reflexivity.
Qed.

Lemma select_app l1 l2 k :
  select (l1 ++ l2) k
  = match select l1 k with
    | Some d => Some d
    | None => select l2 (k - Z.of_nat (List.length l1))
    end.
Proof.
  unfold select.
  destruct (Z.ltb_spec k 0) as [Hneg | Hpos].
  - destruct (Z.ltb_spec (k - Z.of_nat (List.length l1)) 0); [reflexivity | lia].
  - destruct (Nat.lt_ge_cases (Z.to_nat k) (List.length l1)) as [Hin | Hout].
    + rewrite nth_error_app1 by exact Hin.
      destruct (nth_error l1 (Z.to_nat k)) eqn:E; [reflexivity |].
      apply nth_error_None in E. lia.
    + rewrite nth_error_app2 by exact Hout.
      assert (E : nth_error l1 (Z.to_nat k) = None)
        by (apply nth_error_None; exact Hout).
      rewrite E.
      destruct (Z.ltb_spec (k - Z.of_nat (List.length l1)) 0); [lia |].
      f_equal. lia.
Qed.

Lemma select_beyond ms k : Z.of_nat (List.length ms) <= k -> select ms k = None.
Proof.
  intros Hk. unfold select. destruct (Z.ltb_spec k 0); [reflexivity |].
  apply nth_error_None. lia.
Qed.

Lemma select_negative ms k : k < 0 -> select ms k = None.
Proof. intros Hk. unfold select. destruct (Z.ltb_spec k 0); [reflexivity | lia]. Qed.

Lemma select_within ms k :
  0 <= k < Z.of_nat (List.length ms) -> exists d, select ms k = Some d.
Proof.
  intros Hk. unfold select. destruct (Z.ltb_spec k 0); [lia |].
  destruct (nth_error ms (Z.to_nat k)) eqn:E; [eauto |].
  apply nth_error_None in E. lia.
Qed.

Lemma select_In ms k d : select ms k = Some d -> In d ms.
Proof.
  unfold select. destruct (k <? 0); [discriminate |]. apply nth_error_In.
Qed.

Section Matcher.

Variable host : usb_host.
Variables deviceNum timeout' debug' : Z.

Lemma scan_products_run dev n w :
  scan_outcome host deviceNum timeout' debug'
    (matching [dev]) n w
    (scan_products host deviceNum timeout' debug' dev ProductList n w).
Proof.
  unfold scan_outcome, matching, filter, registered, lookup, ProductList,
    find, scan_products, ids_match, product_matches, ids_match.
  cbn [vendor id].
  destruct (idVendor dev =? 3141) eqn:Ev; cbn [andb].
  2: { rewrite select_nil. exists w. split; [apply same_but_stdout_refl |].
       cbn. now rewrite Z.add_0_r. }
  destruct (Z.eqb_spec (idProduct dev) 29697) as [E1 | N1].
  - unfold bind.
    match goal with |- context [when ?c (printf ?fmt ?args) w] =>
      destruct (when_printf_run c fmt args w) as (w1 & E & H1 & _) end.
    rewrite E.
    destruct (Z.eqb_spec n deviceNum) as [En | Nn].
    + subst n. rewrite Z.sub_diag, select_cons_0.
      eexists _, w1. split; [| split; [exact H1 |]].
      * cbn. rewrite Ev, E1. reflexivity.
      * destruct (TemperCreate host dev timeout' debug' _ w1). reflexivity.
    + rewrite select_cons_next, select_nil by lia.
      destruct (Z.eqb_spec (idProduct dev) 29698) as [E2 | N2]; [lia |].
      exists w1. split; [exact H1 | reflexivity].
  - destruct (Z.eqb_spec (idProduct dev) 29698) as [E2 | N2].
    + unfold bind.
      match goal with |- context [when ?c (printf ?fmt ?args) w] =>
        destruct (when_printf_run c fmt args w) as (w1 & E & H1 & _) end.
      rewrite E.
      destruct (Z.eqb_spec n deviceNum) as [En | Nn].
      * subst n. rewrite Z.sub_diag, select_cons_0.
        eexists _, w1. split; [| split; [exact H1 |]].
        -- cbn. rewrite Ev.
           destruct (Z.eqb_spec (idProduct dev) 29697); [lia |].
           rewrite E2. reflexivity.
        -- destruct (TemperCreate host dev timeout' debug' _ w1).
           reflexivity.
      * rewrite select_cons_next, select_nil by lia.
        exists w1. split; [exact H1 | reflexivity].
    + rewrite select_nil. exists w.
      split; [apply same_but_stdout_refl |]. cbn. now rewrite Z.add_0_r.
Qed.

(** Running two loops one after the other, the second from where the
    first ended, is the outcome for the matches of both. *)
Lemma scan_outcome_app ms1 ms2 n w out1 (k : Z -> M (option Temper + Z)) :
  scan_outcome host deviceNum timeout' debug' ms1 n w out1 ->
  (forall n' w', scan_outcome host deviceNum timeout' debug' ms2 n' w'
                   (k n' w')) ->
  scan_outcome host deviceNum timeout' debug' (ms1 ++ ms2) n w
    (match fst out1 with
     | inl t => (inl t, snd out1)
     | inr n' => k n' (snd out1)
     end).
Proof.
  intros H1 H2. unfold scan_outcome in *. rewrite select_app.
  destruct (select ms1 (deviceNum - n)) as [dev|].
  - destruct H1 as (p & w0 & Hl & Hs & ->). cbn [fst snd]. eauto.
  - destruct H1 as (w1 & Hs & ->). cbn [fst snd].
    specialize (H2 (n + Z.of_nat (List.length ms1)) w1).
    replace (deviceNum - n - Z.of_nat (List.length ms1))
      with (deviceNum - (n + Z.of_nat (List.length ms1))) by lia.
    destruct (select ms2 (deviceNum - (n + Z.of_nat (List.length ms1))))
      as [dev|].
    + destruct H2 as (p & w0 & Hl & Hs' & ->).
      exists p, w0. split; [exact Hl |]. split; [| reflexivity].
      eapply same_but_stdout_trans; eassumption.
    + destruct H2 as (w2 & Hs' & ->). exists w2. split.
      * eapply same_but_stdout_trans; eassumption.
      * rewrite length_app. f_equal. f_equal. lia.
Qed.

Lemma scan_outcome_stdout ms n w w1 out :
  same_but_stdout w w1 ->
  scan_outcome host deviceNum timeout' debug' ms n w1 out ->
  scan_outcome host deviceNum timeout' debug' ms n w out.
Proof.
  intros Hs H. unfold scan_outcome in *.
  destruct (select ms (deviceNum - n)).
  - destruct H as (p & w0 & Hl & Hs' & ->). exists p, w0.
    split; [exact Hl |]. split; [| reflexivity].
    eapply same_but_stdout_trans; eassumption.
  - destruct H as (w2 & Hs' & ->). exists w2. split; [| reflexivity].
    eapply same_but_stdout_trans; eassumption.
Qed.

Lemma scan_devices_run devs : forall n w,
  scan_outcome host deviceNum timeout' debug' (matching devs) n w
    (scan_devices host deviceNum timeout' debug' devs n w).
Proof.
  induction devs as [| dev devs IH]; intros n w.
  - unfold scan_outcome. cbn. rewrite select_nil. exists w.
    split; [apply same_but_stdout_refl |]. now rewrite Z.add_0_r.
  - change (matching (dev :: devs)) with (matching ([dev] ++ devs)).
    unfold matching. rewrite filter_app. fold (matching [dev]).
    fold (matching devs).
    cbn [scan_devices]. unfold bind.
    match goal with |- context [when ?c (printf ?fmt ?args) w] =>
      destruct (when_printf_run c fmt args w) as (w1 & E & H1 & _) end.
    rewrite E. apply scan_outcome_stdout with (w1 := w1); [exact H1 |].
    pose proof (scan_outcome_app (matching [dev]) (matching devs) n w1 _
                  (scan_devices host deviceNum timeout' debug' devs)
                  (scan_products_run dev n w1) IH) as H.
    destruct (scan_products host deviceNum timeout' debug' dev ProductList
                n w1) as [[t | n'] w2]; exact H.
Qed.

Lemma scan_busses_run busses : forall n w,
  scan_outcome host deviceNum timeout' debug'
    (matching (flat_map devices busses)) n w
    (scan_busses host deviceNum timeout' debug' busses n w).
Proof.
  induction busses as [| bus busses IH]; intros n w.
  - unfold scan_outcome. cbn. rewrite select_nil. exists w.
    split; [apply same_but_stdout_refl |]. now rewrite Z.add_0_r.
  - cbn [flat_map]. unfold matching. rewrite filter_app.
    fold (matching (devices bus)). fold (matching (flat_map devices busses)).
    cbn [scan_busses]. unfold bind.
    pose proof (scan_outcome_app (matching (devices bus))
                  (matching (flat_map devices busses)) n w _
                  (scan_busses host deviceNum timeout' debug' busses)
                  (scan_devices_run (devices bus) n w) IH) as H.
    destruct (scan_devices host deviceNum timeout' debug' (devices bus) n w)
      as [[t | n'] w2]; exact H.
Qed.

(** [TemperCreateFromDeviceNumber] hands the match with number
    [deviceNum] to [TemperCreate] and returns what it returns; when there
    is no such match it returns the null pointer without a libusb call. *)
Lemma TemperCreateFromDeviceNumber_run w :
  match select (matching (enumeration host)) deviceNum with
  | Some dev =>
      exists p w0,
        lookup (idVendor dev) (idProduct dev) = Some p
        /\ same_but_stdout w w0
        /\ TemperCreateFromDeviceNumber host deviceNum timeout' debug' w
           = TemperCreate host dev timeout' debug' p w0
  | None =>
      exists w',
        same_but_stdout w w'
        /\ TemperCreateFromDeviceNumber host deviceNum timeout' debug' w
           = (None, w')
  end.
Proof.
  unfold TemperCreateFromDeviceNumber, usb_get_busses, bind, ret.
  pose proof (scan_busses_run (host_busses host) 0 w) as H.
  unfold scan_outcome in H. rewrite Z.sub_0_r in H. fold (enumeration host) in H.
  destruct (select (matching (enumeration host)) deviceNum) as [dev|].
  - destruct H as (p & w0 & Hl & Hs & ->). exists p, w0.
    split; [exact Hl |]. split; [exact Hs |].
    destruct (TemperCreate host dev timeout' debug' p w0). reflexivity.
  - destruct H as (w' & Hs & ->). exists w'. split; [exact Hs | reflexivity].
Qed.

End Matcher.

(** ** Device matcher: numbering and outcome *)

(** The matches of devices at distinct addresses are at distinct
    addresses. *)
Lemma matching_distinct (devs : list usb_device) :
  NoDup (map dev_addr devs) -> NoDup (map dev_addr (matching devs)).
Proof.
  unfold matching. induction devs as [| dev devs IH]; intros Hnd.
  - constructor.
  - cbn in Hnd. apply NoDup_cons_iff in Hnd as [Hfresh Hrest].
    cbn [filter]. destruct (registered dev).
    + cbn [map]. apply NoDup_cons; [| exact (IH Hrest)].
      contradict Hfresh.
      apply in_map_iff in Hfresh as (other & Haddr & Hin).
      apply filter_In in Hin. rewrite <- Haddr. apply in_map. tauto.
    + exact (IH Hrest).
Qed.

Lemma select_distinct ms i j di dj :
  NoDup (map dev_addr ms) ->
  select ms i = Some di -> select ms j = Some dj ->
  dev_addr di = dev_addr dj -> i = j.
Proof.
  intros Hnd Hi Hj Haddr. unfold select in *.
  destruct (Z.ltb_spec i 0); [discriminate |].
  destruct (Z.ltb_spec j 0); [discriminate |].
  assert (Hlt : (Z.to_nat i < List.length (map dev_addr ms))%nat).
  { rewrite length_map. apply nth_error_Some. congruence. }
  assert (E : nth_error (map dev_addr ms) (Z.to_nat i)
              = nth_error (map dev_addr ms) (Z.to_nat j)).
  { rewrite !nth_error_map, Hi, Hj. cbn. now rewrite Haddr. }
  pose proof (proj1 (NoDup_nth_error (map dev_addr ms)) Hnd _ _ Hlt E). lia.
Qed.

(** C5: [TemperCreateFromDeviceNumber] walks the devices in enumeration
    order, skips those the registry does not know, numbers the others from
    0 and hands the one numbered [deviceNum] to [TemperCreate]; an index
    that is negative or not below the number of matches gives the null
    pointer with no libusb call; two different indexes in range select
    devices at different addresses. *)
Theorem C5_find_nth_numbering :
  forall host deviceNum timeout' debug' w,
    NoDup (map dev_addr (enumeration host)) ->
    let ms := filter registered (flat_map devices (host_busses host)) in
    let found := if deviceNum <? 0 then None
                 else nth_error ms (Z.to_nat deviceNum) in
    let run := TemperCreateFromDeviceNumber host deviceNum timeout' debug' w in
    match found with
    | Some dev =>
        In dev (enumeration host) /\ registered dev = true
        /\ exists p w0,
             lookup (idVendor dev) (idProduct dev) = Some p
             /\ same_but_stdout w w0
             /\ run = TemperCreate host dev timeout' debug' p w0
    | None => fst run = None /\ same_but_stdout w (snd run)
    end
    /\ (if (0 <=? deviceNum) && (deviceNum <? Z.of_nat (List.length ms))
        then exists dev, found = Some dev
        else found = None /\ fst run = None /\ calls (snd run) = calls w)
    /\ (forall other,
          match found, select ms other with
          | Some d1, Some d2 => deviceNum = other \/ dev_addr d1 <> dev_addr d2
          | _, _ => True
          end).
Proof.
  intros host deviceNum timeout' debug' w Hnd ms found run.
  fold (enumeration host) in ms. fold (matching (enumeration host)) in ms.
  fold (select ms deviceNum) in found.
  pose proof (TemperCreateFromDeviceNumber_run host deviceNum timeout' debug' w)
    as Hrun.
  fold ms in Hrun. fold found in Hrun. fold run in Hrun.
  assert (Hnone : found = None ->
                  fst run = None /\ same_but_stdout w (snd run)).
  { intros E. rewrite E in Hrun. destruct Hrun as (w' & Hs & ->). auto. }
  split; [| split].
  - destruct found as [dev|] eqn:E; [| auto].
    pose proof (select_In _ _ _ E) as Hin. apply filter_In in Hin as [Hin Hreg].
    auto.
  - destruct (Z.leb_spec 0 deviceNum) as [Hpos | Hneg]; cbn [andb].
    + destruct (Z.ltb_spec deviceNum (Z.of_nat (List.length ms))) as [Hlt | Hge].
      * apply select_within. lia.
      * assert (E : found = None) by (apply select_beyond; exact Hge).
        destruct (Hnone E) as (Hr & Hc & _). auto.
    + assert (E : found = None) by (apply select_negative; exact Hneg).
      destruct (Hnone E) as (Hr & Hc & _). auto.
  - intros other. destruct found as [d1|] eqn:E1; [| exact I].
    destruct (select ms other) as [d2|] eqn:E2; [| exact I].
    destruct (Z.eq_dec deviceNum other) as [Heq | Hneq]; [left; exact Heq |].
    right. intros Haddr. apply Hneq.
    apply (select_distinct ms deviceNum other d1 d2); auto.
    apply matching_distinct. exact Hnd.
Qed.

Lemma C5_find_nth_numbering_witness :
  fst (TemperCreateFromDeviceNumber three_sensor_host 3 1000 0 boot) = None.
Proof.
  assert (Hnd : NoDup (map dev_addr (enumeration three_sensor_host))).
  { repeat constructor; cbn; intuition lia. }
  pose proof (C5_find_nth_numbering three_sensor_host 3 1000 0 boot Hnd) as H.
  cbv zeta in H. destruct H as (_ & H & _).
  exact (proj1 (proj2 H)).
Defined.

(** C10: when the match numbered [deviceNum] exists, [usb_open] is called
    once, for that device, and the result is [TemperCreate]'s for it: the
    null pointer when the open fails, which is also the result when there
    is no such match; no other device is opened. *)
Theorem C10_open_failure_is_null_and_no_fallback :
  forall host deviceNum timeout' debug' w,
    let run := TemperCreateFromDeviceNumber host deviceNum timeout' debug' w in
    match select (matching (enumeration host)) deviceNum with
    | Some dev =>
        exists new,
          calls (snd run) = calls w ++ new
          /\ filter is_open new = [Call_usb_open dev]
          /\ match fst (open_steps host dev (calls w)) with
             | Some h =>
                 exists t, fst run = Some t /\ handle t = h /\ device t = dev
             | None => fst run = None
             end
    | None => fst run = None /\ calls (snd run) = calls w
    end.
Proof.
  intros host deviceNum timeout' debug' w run.
  pose proof (TemperCreateFromDeviceNumber_run host deviceNum timeout' debug' w)
    as Hrun.
  fold run in Hrun.
  destruct (select (matching (enumeration host)) deviceNum) as [dev|].
  - destruct Hrun as (p & w0 & _ & (Hc & _) & E).
    destruct (TemperCreate_run host dev timeout' debug' p w0)
      as (w' & E' & C' & _).
    rewrite E, E'. cbn [fst snd]. rewrite C', Hc.
    destruct (open_steps_shape host dev (calls w)) as (new & Hn & Hs).
    exists new. split; [exact Hn |].
    destruct (host_open host (calls w) dev) as [h|].
    + destruct Hs as (mid & _ & Hmid & [[Hr Hnew] | [Hr Hnew]]);
        rewrite Hr; subst new; cbn.
      * rewrite Hmid. split; [reflexivity |]. eexists. repeat split.
      * rewrite filter_app, Hmid. split; reflexivity.
    + destruct Hs as [Hr Hnew]. rewrite Hr. subst new. split; reflexivity.
  - destruct Hrun as (w' & (Hc & _) & E). rewrite E. split; [reflexivity | exact Hc].
Qed.

(** ** Product registry *)

(** C7, as stated, fails: the registered name of 0x0c45:0x7401 is not
    the specification's TEMPer2V1.3, and that of 0x0c45:0x7402 is not
    TEMperHumiV1.1. *)
Lemma C7_names_differ_from_spec :
  option_map name (lookup 0x0c45 0x7401) <> spec_lookup_name 0x0c45 0x7401
  /\ option_map name (lookup 0x0c45 0x7402) <> spec_lookup_name 0x0c45 0x7402
  /\ option_map name (lookup 0x0c45 0x7401) <> Some "TEMPer2V1.3"%string
  /\ option_map name (lookup 0x0c45 0x7402) <> Some "TEMperHumiV1.1"%string.
Proof. repeat split; discriminate. Qed.

(** C7, amended: the lookup answers the entry named RDing TEMPer2V1.3 for
    0x0c45:0x7401, the entry named RDing TEMPerHumiV1.1 for 0x0c45:0x7402,
    and nothing for every other pair, 0x1130:0x660c among them; the pairs
    of the registry are unique. *)
Theorem C7_lookup_registered_pairs :
  (forall vendorId productId,
      lookup vendorId productId
      = if (vendorId =? 0x0c45) && (productId =? 0x7401)
        then Some {| vendor := 0x0c45; id := 0x7401;
                     name := "RDing TEMPer2V1.3" |}
        else if (vendorId =? 0x0c45) && (productId =? 0x7402)
             then Some {| vendor := 0x0c45; id := 0x7402;
                          name := "RDing TEMPerHumiV1.1" |}
             else None)
  /\ lookup 0x1130 0x660c = None
  /\ NoDup (map (fun p => (vendor p, id p)) ProductList)
  /\ (forall dev, registered dev = existsb (product_matches dev) ProductList).
Proof.
  split; [| split; [| split]].
  - intros v p. reflexivity.
  - reflexivity.
  - repeat constructor; cbn; intuition congruence.
  - intros dev. unfold registered, lookup, ProductList, find, existsb,
      product_matches.
    destruct (ids_match (idVendor dev) (idProduct dev) _); [reflexivity |].
    destruct (ids_match (idVendor dev) (idProduct dev) _); reflexivity.
Qed.

(** ** Short reads *)

(** C4, as stated, fails: a read of four bytes is returned as the count 4
    and decoded all the same, tempA from the bytes read and tempB from what
    the array held before. *)
Lemma C4_short_read_is_decoded :
  fst (TemperGetData short_read_host some_temper no_reading stale_stack boot)
  = (4, {| tempA := S754_finite false 13107200 (-23);
           tempB := S754_finite true 9437184 (-24) |})
  /\ ~ short_read_is_not_decoded.
Proof.
  assert (E : fst (TemperGetData short_read_host some_temper no_reading
                     stale_stack boot)
              = (4, {| tempA := S754_finite false 13107200 (-23);
                       tempB := S754_finite true 9437184 (-24) |}))
    by (vm_compute; reflexivity).
  split; [exact E |].
  intros H.
  specialize (H short_read_host some_temper no_reading stale_stack boot).
  rewrite E in H. cbn [fst snd] in H.
  assert (Hlt : 4 < 8) by lia. specialize (H Hlt). discriminate H.
Qed.

(** C4, amended: when the interrupt read answers fewer than 8, the poll
    makes that one read of 8 bytes from endpoint 0x82 and no other call,
    returns the count it answered, which is not 8, writes nothing to
    stderr, and decodes the buffer as the read left it: the bytes stored,
    followed by the former content of the array, not by padding. *)
Theorem C4_short_read_returns_count :
  forall host t data stack_buf w,
    let answer :=
      host_interrupt_read host (calls w) (handle t) 0x82 8 (timeout t) in
    let run := TemperGetData host t data stack_buf w in
    let buf := response_buf host t stack_buf w in
    CInt.int (fst answer) < 8 ->
    fst (fst run) = CInt.int (fst answer)
    /\ fst (fst run) <> 8
    /\ calls (snd run)
       = calls w ++ [Call_usb_interrupt_read (handle t) 0x82 8 (timeout t)]
    /\ stderr (snd run) = stderr w
    /\ buf = firstn (Nat.min 8 (List.length stack_buf)) (snd answer)
             ++ skipn (List.length
                         (firstn (Nat.min 8 (List.length stack_buf))
                            (snd answer)))
                  stack_buf
    /\ snd (fst run)
       = {| tempA := TemperByteToCelcius t (at_index buf 2) (at_index buf 3);
            tempB := TemperByteToCelcius t (at_index buf 4) (at_index buf 5)
         |}.
Proof.
  intros host t data stack_buf w answer run buf Hshort. subst answer run buf.
  destruct (TemperGetData_run host t data stack_buf w) as (w' & E & C & S & _).
  cbv zeta in E. rewrite E. cbn [fst snd].
  repeat split; auto. lia.
Qed.

Lemma C4_short_read_returns_count_witness :
  fst (fst (TemperGetData short_read_host some_temper no_reading stale_stack
              boot)) <> 8.
Proof.
  refine (proj1 (proj2 (C4_short_read_returns_count short_read_host
                          some_temper no_reading stale_stack boot _))).
  vm_compute. reflexivity.
Defined.

(** ** The debug flag *)

Lemma visible_eq w1 w2 :
  calls w1 = calls w2 -> stderr w1 = stderr w2 -> visible w1 = visible w2.
Proof. unfold visible. congruence. Qed.

Section Debug.

Variable host : usb_host.

Lemma TemperCreate_debug dev timeout' d1 d2 p w1 w2 :
  calls w1 = calls w2 -> stderr w1 = stderr w2 ->
  option_map (set_debug 0) (fst (TemperCreate host dev timeout' d1 p w1))
  = option_map (set_debug 0) (fst (TemperCreate host dev timeout' d2 p w2))
  /\ visible (snd (TemperCreate host dev timeout' d1 p w1))
     = visible (snd (TemperCreate host dev timeout' d2 p w2)).
Proof.
  intros Hc Hs.
  destruct (TemperCreate_run host dev timeout' d1 p w1) as (v1 & E1 & C1 & S1 & _).
  destruct (TemperCreate_run host dev timeout' d2 p w2) as (v2 & E2 & C2 & S2 & _).
  rewrite E1, E2. cbn [fst snd]. rewrite Hc. split.
  - destruct (fst (open_steps host dev (calls w2))); reflexivity.
  - apply visible_eq; congruence.
Qed.

Lemma TemperCreateFromDeviceNumber_debug deviceNum timeout' d1 d2 w :
  option_map (set_debug 0)
    (fst (TemperCreateFromDeviceNumber host deviceNum timeout' d1 w))
  = option_map (set_debug 0)
      (fst (TemperCreateFromDeviceNumber host deviceNum timeout' d2 w))
  /\ visible (snd (TemperCreateFromDeviceNumber host deviceNum timeout' d1 w))
     = visible
         (snd (TemperCreateFromDeviceNumber host deviceNum timeout' d2 w)).
Proof.
  pose proof (TemperCreateFromDeviceNumber_run host deviceNum timeout' d1 w)
    as H1.
  pose proof (TemperCreateFromDeviceNumber_run host deviceNum timeout' d2 w)
    as H2.
  destruct (select (matching (enumeration host)) deviceNum) as [dev|].
  - destruct H1 as (p1 & u1 & L1 & (C1 & S1 & _) & ->).
    destruct H2 as (p2 & u2 & L2 & (C2 & S2 & _) & ->).
    assert (p1 = p2) by congruence. subst p2.
    apply TemperCreate_debug; congruence.
  - destruct H1 as (u1 & (C1 & S1 & _) & ->).
    destruct H2 as (u2 & (C2 & S2 & _) & ->).
    split; [reflexivity | apply visible_eq; cbn; congruence].
Qed.

Lemma TemperSendCommand8_debug t d a b c d' e f g h w :
  fst (TemperSendCommand8 host (set_debug d t) a b c d' e f g h w)
  = fst (TemperSendCommand8 host t a b c d' e f g h w)
  /\ visible (snd (TemperSendCommand8 host (set_debug d t) a b c d' e f g h w))
     = visible (snd (TemperSendCommand8 host t a b c d' e f g h w)).
Proof.
  destruct (TemperSendCommand8_run host (set_debug d t) a b c d' e f g h w)
    as (u1 & (C1 & S1 & N1) & _ & E1).
  destruct (TemperSendCommand8_run host t a b c d' e f g h w)
    as (u2 & (C2 & S2 & N2) & _ & E2).
  cbv zeta in E1, E2. rewrite E1, E2. cbn [set_debug handle timeout].
  destruct (CInt.int _ =? 72); cbn [fst snd]; (split; [reflexivity |]);
    apply visible_eq; cbn; congruence.
Qed.

Lemma TemperSendCommand2_debug t d a b w :
  fst (TemperSendCommand2 host (set_debug d t) a b w)
  = fst (TemperSendCommand2 host t a b w)
  /\ visible (snd (TemperSendCommand2 host (set_debug d t) a b w))
     = visible (snd (TemperSendCommand2 host t a b w)).
Proof.
  destruct (TemperSendCommand2_run host (set_debug d t) a b w)
    as (u1 & (C1 & S1 & N1) & _ & E1).
  destruct (TemperSendCommand2_run host t a b w)
    as (u2 & (C2 & S2 & N2) & _ & E2).
  cbv zeta in E1, E2. rewrite E1, E2. cbn [set_debug handle timeout].
  destruct (CInt.int _ =? 72); cbn [fst snd]; (split; [reflexivity |]);
    apply visible_eq; cbn; congruence.
Qed.

Lemma TemperInterruptRead_debug t d buf len w :
  fst (TemperInterruptRead host (set_debug d t) buf len w)
  = fst (TemperInterruptRead host t buf len w)
  /\ visible (snd (TemperInterruptRead host (set_debug d t) buf len w))
     = visible (snd (TemperInterruptRead host t buf len w)).
Proof.
  destruct (TemperInterruptRead_run host (set_debug d t) buf len w)
    as (u1 & E1 & C1 & S1 & _).
  destruct (TemperInterruptRead_run host t buf len w)
    as (u2 & E2 & C2 & S2 & _).
  rewrite E1, E2. cbn [fst snd set_debug handle timeout] in *.
  split; [reflexivity | apply visible_eq; congruence].
Qed.

Lemma TemperGetData_debug t d data stack_buf w :
  fst (TemperGetData host (set_debug d t) data stack_buf w)
  = fst (TemperGetData host t data stack_buf w)
  /\ visible (snd (TemperGetData host (set_debug d t) data stack_buf w))
     = visible (snd (TemperGetData host t data stack_buf w)).
Proof.
  destruct (TemperGetData_run host (set_debug d t) data stack_buf w)
    as (u1 & E1 & C1 & S1 & _).
  destruct (TemperGetData_run host t data stack_buf w)
    as (u2 & E2 & C2 & S2 & _).
  cbv zeta in E1, E2. rewrite E1, E2.
  cbn [fst snd set_debug handle timeout] in *.
  split; [reflexivity | apply visible_eq; congruence].
Qed.

End Debug.

(** C8: two runs of a core operation that differ in the debug flag only
    return the same values (a session up to the flag it stores), make the
    same libusb calls and leave the same text on stderr: device matching,
    session open, both command sends, the interrupt read, the reading and
    its decoding. *)
Theorem C8_debug_flag_only_prints :
  forall host w t (d d1 d2 : Z),
    (forall deviceNum timeout',
        option_map (set_debug 0)
          (fst (TemperCreateFromDeviceNumber host deviceNum timeout' d1 w))
        = option_map (set_debug 0)
            (fst (TemperCreateFromDeviceNumber host deviceNum timeout' d2 w))
        /\ visible
             (snd (TemperCreateFromDeviceNumber host deviceNum timeout' d1 w))
           = visible
               (snd (TemperCreateFromDeviceNumber host deviceNum timeout' d2
                       w)))
    /\ (forall dev timeout' p,
          option_map (set_debug 0)
            (fst (TemperCreate host dev timeout' d1 p w))
          = option_map (set_debug 0)
              (fst (TemperCreate host dev timeout' d2 p w))
          /\ visible (snd (TemperCreate host dev timeout' d1 p w))
             = visible (snd (TemperCreate host dev timeout' d2 p w)))
    /\ (forall a b c d' e f g h,
          fst (TemperSendCommand8 host (set_debug d t) a b c d' e f g h w)
          = fst (TemperSendCommand8 host t a b c d' e f g h w)
          /\ visible
               (snd (TemperSendCommand8 host (set_debug d t) a b c d' e f g h
                       w))
             = visible (snd (TemperSendCommand8 host t a b c d' e f g h w)))
    /\ (forall a b,
          fst (TemperSendCommand2 host (set_debug d t) a b w)
          = fst (TemperSendCommand2 host t a b w)
          /\ visible (snd (TemperSendCommand2 host (set_debug d t) a b w))
             = visible (snd (TemperSendCommand2 host t a b w)))
    /\ (forall buf len,
          fst (TemperInterruptRead host (set_debug d t) buf len w)
          = fst (TemperInterruptRead host t buf len w)
          /\ visible (snd (TemperInterruptRead host (set_debug d t) buf len w))
             = visible (snd (TemperInterruptRead host t buf len w)))
    /\ (forall data stack_buf,
          fst (TemperGetData host (set_debug d t) data stack_buf w)
          = fst (TemperGetData host t data stack_buf w)
          /\ visible (snd (TemperGetData host (set_debug d t) data stack_buf w))
             = visible (snd (TemperGetData host t data stack_buf w)))
    /\ (forall high low,
          TemperByteToCelcius (set_debug d t) high low
          = TemperByteToCelcius t high low).
Proof.
  intros host w t d d1 d2.
  split; [| split; [| split; [| split; [| split; [| split]]]]].
  - intros. apply TemperCreateFromDeviceNumber_debug.
  - intros. apply TemperCreate_debug; reflexivity.
  - intros. apply TemperSendCommand8_debug.
  - intros. apply TemperSendCommand2_debug.
  - intros. apply TemperInterruptRead_debug.
  - intros. apply TemperGetData_debug.
  - intros. reflexivity.
Qed.

(** ** Runs on the example hosts *)

(** Indexes 0, 1 and 2 open the three TEMPer devices of the example host in
    enumeration order; index 3 and a negative index open nothing. *)
Example three_sensor_host_indexes :
  map (fun i =>
         option_map (fun t => dev_addr (device t))
           (fst (TemperCreateFromDeviceNumber three_sensor_host i 1000 0 boot)))
      [0; 1; 2; 3; -1]
  = [Some 2; Some 3; Some 5; None; None].
Proof. vm_compute. reflexivity. Qed.

(** A failing claim of interface 1 closes the handle after both claims. *)
Example claim_failure_trace :
  let host :=
    {| host_busses := [];
       host_open := host_open idle_host;
       host_detach := host_detach idle_host;
       host_set_configuration := host_set_configuration idle_host;
       host_claim_interface := fun _ _ interface => if interface =? 1 then -16 else 0;
       host_control_msg := host_control_msg idle_host;
       host_interrupt_read := host_interrupt_read idle_host |} in
  let run :=
    TemperCreate host {| dev_addr := 2; idVendor := 0x0c45; idProduct := 0x7401 |}
      1000 0 {| vendor := 0x0c45; id := 0x7401; name := "RDing TEMPer2V1.3" |}
      boot in
  fst run = None
  /\ calls (snd run)
     = [Call_usb_open {| dev_addr := 2; idVendor := 0x0c45; idProduct := 0x7401 |};
        Call_usb_detach_kernel_driver_np 102 0;
        Call_usb_detach_kernel_driver_np 102 1;
        Call_usb_set_configuration 102 1;
        Call_usb_claim_interface 102 0;
        Call_usb_claim_interface 102 1;
        Call_usb_close 102].
Proof. vm_compute. split; reflexivity. Qed.

(** The response 00 00 01 90 ff 70 00 00 of a full read decodes to 1.5625
    and -0.5625. *)
Example full_read_decodes :
  fst (TemperGetData
         (with_interrupt_read idle_host
            (fun _ _ _ _ _ => (8, [x00; x00; x01; x90; xff; x70; x00; x00])))
         some_temper no_reading stale_stack boot)
  = (8, {| tempA := S754_finite false 13107200 (-23);
           tempB := S754_finite true 9437184 (-24) |})
  /\ to_Q (S754_finite false 13107200 (-23)) = Some (13107200 # 8388608)
  /\ (13107200 # 8388608 == 15625 # 10000)%Q
  /\ to_Q (S754_finite true 9437184 (-24)) = Some (-9437184 # 16777216)
  /\ (-9437184 # 16777216 == - (5625 # 10000))%Q.
Proof. vm_compute. repeat split; reflexivity || discriminate. Qed.

(** * Further properties of comm.c *)

(** ** Session lifetime *)

(** The history [TemperCreate] hands to [usb_set_configuration] after a
    successful [usb_open]. *)
Lemma open_steps_unfold host dev cs h :
  host_open host cs dev = Some h ->
  let cs3 := cs ++ [Call_usb_open dev; Call_usb_detach_kernel_driver_np h 0;
                    Call_usb_detach_kernel_driver_np h 1] in
  let sc := CInt.int (host_set_configuration host cs3 h 1) in
  let c0 :=
    CInt.int (host_claim_interface host
                (cs3 ++ [Call_usb_set_configuration h 1]) h 0) in
  let c1 :=
    CInt.int (host_claim_interface host
                (cs3 ++ [Call_usb_set_configuration h 1;
                         Call_usb_claim_interface h 0]) h 1) in
  open_steps host dev cs
  = if sc <? 0
    then (None, cs3 ++ [Call_usb_set_configuration h 1; Call_usb_close h])
    else if c0 <? 0
    then (None, cs3 ++ [Call_usb_set_configuration h 1;
                        Call_usb_claim_interface h 0; Call_usb_close h])
    else if CInt.truthy c1
    then (None, cs3 ++ [Call_usb_set_configuration h 1;
                        Call_usb_claim_interface h 0;
                        Call_usb_claim_interface h 1; Call_usb_close h])
    else (Some h, cs3 ++ [Call_usb_set_configuration h 1;
                          Call_usb_claim_interface h 0;
                          Call_usb_claim_interface h 1]).
Proof.
  intros Hopen. cbv zeta. unfold open_steps. rewrite Hopen.
  repeat rewrite <- app_assoc. cbn [app].
  destruct (CInt.int (host_set_configuration host _ h 1) <? 0);
    [reflexivity |].
  destruct (CInt.int (host_claim_interface host _ h 0) <? 0);
    [reflexivity |].
  destruct (CInt.truthy (CInt.int (host_claim_interface host _ h 1)));
    reflexivity.
Qed.

(** X1: [TemperCreate] followed by [TemperFree] of what it returned opens
    the device once and closes the handle the host answered exactly once,
    as the last call, whether the creation succeeded or not; when the host
    answers no handle nothing is closed.  [TemperFree] prints nothing. *)
Theorem X1_create_then_free_closes_once :
  forall host dev timeout' debug' product' w,
    let created := TemperCreate host dev timeout' debug' product' w in
    let freed := TemperFree (fst created) (snd created) in
    exists new,
      calls (snd freed) = calls w ++ new
      /\ filter is_open new = [Call_usb_open dev]
      /\ match host_open host (calls w) dev with
         | Some h =>
             filter is_close new = [Call_usb_close h]
             /\ exists before, new = before ++ [Call_usb_close h]
         | None => new = [Call_usb_open dev]
         end
      /\ stdout (snd freed) = stdout (snd created)
      /\ stderr (snd freed) = stderr w.
Proof.
  intros host dev timeout' debug' product' w created freed.
  subst created freed.
  destruct (TemperCreate_run host dev timeout' debug' product' w)
    as (w' & E & C & S & _).
  rewrite E. cbn [fst snd].
  destruct (open_steps_shape host dev (calls w)) as (new & Hn & Hs).
  rewrite Hn in C.
  destruct (host_open host (calls w) dev) as [h|].
  - destruct Hs as (mid & Hcl & Hop & [[Hr Hnew] | [Hr Hnew]]); rewrite Hr;
      cbn [option_map TemperFree handle usb_close ret record_call fst snd
           calls stdout stderr].
    + exists (new ++ [Call_usb_close h]). rewrite C, <- app_assoc. subst new.
      split; [reflexivity |]. cbn [filter is_open is_close app].
      rewrite !filter_app, Hop, Hcl. cbn.
      repeat split; auto. eexists. rewrite app_comm_cons. reflexivity.
    + exists new. rewrite C. subst new.
      split; [reflexivity |]. cbn [filter is_open is_close app].
      rewrite !filter_app, Hop, Hcl. cbn.
      repeat split; auto. eexists. rewrite app_comm_cons. reflexivity.
  - destruct Hs as [Hr Hnew]. rewrite Hr. cbn. exists new. rewrite C.
    subst new. repeat split; auto.
Qed.

(** X2: after a successful [usb_open], [TemperCreate] detaches interface 0
    and 1, sets configuration 1 and stops at the first failing step:
    a failed [usb_set_configuration] is followed by no claim, a failed claim
    of interface 0 by no claim of interface 1, and each failure by
    [usb_close] alone. *)
Theorem X2_open_stops_at_first_failure :
  forall host dev timeout' debug' product' w,
    let run := TemperCreate host dev timeout' debug' product' w in
    match host_open host (calls w) dev with
    | None => calls (snd run) = calls w ++ [Call_usb_open dev]
    | Some h =>
        let cs3 :=
          calls w ++ [Call_usb_open dev; Call_usb_detach_kernel_driver_np h 0;
                      Call_usb_detach_kernel_driver_np h 1] in
        let sc := CInt.int (host_set_configuration host cs3 h 1) in
        let c0 :=
          CInt.int (host_claim_interface host
                      (cs3 ++ [Call_usb_set_configuration h 1]) h 0) in
        let c1 :=
          CInt.int (host_claim_interface host
                      (cs3 ++ [Call_usb_set_configuration h 1;
                               Call_usb_claim_interface h 0]) h 1) in
        calls (snd run)
        = cs3 ++ Call_usb_set_configuration h 1
              :: (if sc <? 0 then [Call_usb_close h]
                  else Call_usb_claim_interface h 0
                       :: (if c0 <? 0 then [Call_usb_close h]
                           else Call_usb_claim_interface h 1
                                :: (if c1 =? 0 then []
                                    else [Call_usb_close h])))
    end.
Proof.
  intros host dev timeout' debug' product' w run. subst run.
  destruct (TemperCreate_run host dev timeout' debug' product' w)
    as (w' & E & C & _).
  rewrite E. cbn [snd]. rewrite C.
  destruct (host_open host (calls w) dev) as [h|] eqn:Hopen.
  - rewrite (open_steps_unfold host dev (calls w) h Hopen). cbv zeta.
    unfold CInt.truthy.
    destruct (CInt.int (host_set_configuration host _ h 1) <? 0);
      [reflexivity |].
    destruct (CInt.int (host_claim_interface host _ h 0) <? 0);
      [reflexivity |].
    destruct (CInt.int (host_claim_interface host _ h 1) =? 0); reflexivity.
  - unfold open_steps. rewrite Hopen. reflexivity.
Qed.

(** X3: [TemperCreate] returns a session exactly when [usb_open] answers a
    handle, [usb_set_configuration] and the claim of interface 0 answer no
    negative number and the claim of interface 1 answers 0: a positive
    answer is a success for the first two and a failure for the last.  The
    session holds the device, the handle answered, and the timeout, debug
    flag and product passed in. *)
Theorem X3_open_success_criterion :
  forall host dev timeout' debug' product' w,
    let run := TemperCreate host dev timeout' debug' product' w in
    match host_open host (calls w) dev with
    | None => fst run = None
    | Some h =>
        let cs3 :=
          calls w ++ [Call_usb_open dev; Call_usb_detach_kernel_driver_np h 0;
                      Call_usb_detach_kernel_driver_np h 1] in
        let sc := CInt.int (host_set_configuration host cs3 h 1) in
        let c0 :=
          CInt.int (host_claim_interface host
                      (cs3 ++ [Call_usb_set_configuration h 1]) h 0) in
        let c1 :=
          CInt.int (host_claim_interface host
                      (cs3 ++ [Call_usb_set_configuration h 1;
                               Call_usb_claim_interface h 0]) h 1) in
        fst run
        = if (0 <=? sc) && (0 <=? c0) && (c1 =? 0)
          then Some {| device := dev; handle := h; debug := debug';
                       timeout := timeout'; product := product' |}
          else None
    end.
Proof.
  intros host dev timeout' debug' product' w run. subst run.
  destruct (TemperCreate_run host dev timeout' debug' product' w)
    as (w' & E & _).
  rewrite E. cbn [fst].
  destruct (host_open host (calls w) dev) as [h|] eqn:Hopen.
  - rewrite (open_steps_unfold host dev (calls w) h Hopen). cbv zeta.
    unfold CInt.truthy.
    destruct (Z.ltb_spec (CInt.int (host_set_configuration host
                (calls w ++ [Call_usb_open dev;
                             Call_usb_detach_kernel_driver_np h 0;
                             Call_usb_detach_kernel_driver_np h 1]) h 1)) 0)
      as [Hsc | Hsc].
    { destruct (Z.leb_spec 0 (CInt.int (host_set_configuration host
                (calls w ++ [Call_usb_open dev;
                             Call_usb_detach_kernel_driver_np h 0;
                             Call_usb_detach_kernel_driver_np h 1]) h 1)));
        [lia | reflexivity]. }
    destruct (Z.leb_spec 0 (CInt.int (host_set_configuration host
                (calls w ++ [Call_usb_open dev;
                             Call_usb_detach_kernel_driver_np h 0;
                             Call_usb_detach_kernel_driver_np h 1]) h 1)));
      [| lia].
    cbn [andb].
    match goal with |- context [?c0 <? 0] =>
      destruct (Z.ltb_spec c0 0) as [Hc0 | Hc0];
      destruct (Z.leb_spec 0 c0); try lia end.
    { reflexivity. }
    cbn [andb].
    destruct (CInt.int (host_claim_interface host _ h 1) =? 0); reflexivity.
  - unfold open_steps. rewrite Hopen. reflexivity.
Qed.

(** ** Command frames for arbitrary [int] arguments *)

Lemma of_byte_to_byte (x : Z) : CInt.of_byte (CInt.to_byte x) = x mod 256.
Proof.
  unfold CInt.of_byte, CInt.to_byte, CInt.to_unsigned.
  change (2 ^ 8) with 256.
  pose proof (Z.mod_pos_bound x 256 eq_refl) as Hr.
  destruct (Byte.of_N (Z.to_N (x mod 256))) as [b|] eqn:E.
  - apply Byte.to_of_N in E. rewrite E. lia.
  - apply Byte.of_N_None_iff in E. lia.
Qed.

(** What a run of a send function adds to the calls. *)
Lemma TemperSendCommand8_calls host t a b c d e f g h w :
  calls (snd (TemperSendCommand8 host t a b c d e f g h w))
  = calls w
      ++ [Call_usb_control_msg (handle t) 0x21 9 0x200 0x01
            (frame_of [CInt.to_byte a; CInt.to_byte b; CInt.to_byte c;
                       CInt.to_byte d; CInt.to_byte e; CInt.to_byte f;
                       CInt.to_byte g; CInt.to_byte h])
            72 (timeout t)].
Proof.
  destruct (TemperSendCommand8_run host t a b c d e f g h w)
    as (w1 & (Hc & _) & _ & E).
  cbv zeta in E. rewrite E.
  destruct (CInt.int _ =? 72); cbn; now rewrite Hc.
Qed.

Lemma TemperSendCommand2_calls host t a b w :
  calls (snd (TemperSendCommand2 host t a b w))
  = calls w
      ++ [Call_usb_control_msg (handle t) 0x21 9 0x201 0x00
            (frame_of [CInt.to_byte a; CInt.to_byte b]) 72 (timeout t)].
Proof.
  destruct (TemperSendCommand2_run host t a b w) as (w1 & (Hc & _) & _ & E).
  cbv zeta in E. rewrite E.
  destruct (CInt.int _ =? 72); cbn; now rewrite Hc.
Qed.

(** X4: the arguments of the send functions are [int]s and each is stored
    in one byte of the frame: whatever the arguments, the frame sent has 72
    bytes, its leading bytes are the arguments modulo 256 (so -1 is sent as
    0xff and 0x154 as 0x54) and all others are zero. *)
Theorem X4_send_arguments_are_reduced_modulo_256 :
  forall host t a b c d e f g h w,
    exists frame8 frame2,
      calls (snd (TemperSendCommand8 host t a b c d e f g h w))
      = calls w ++ [Call_usb_control_msg (handle t) 0x21 9 0x200 0x01 frame8
                      72 (timeout t)]
      /\ map CInt.of_byte frame8
         = [a mod 256; b mod 256; c mod 256; d mod 256; e mod 256; f mod 256;
            g mod 256; h mod 256] ++ repeat 0 64
      /\ calls (snd (TemperSendCommand2 host t a b w))
         = calls w ++ [Call_usb_control_msg (handle t) 0x21 9 0x201 0x00
                         frame2 72 (timeout t)]
      /\ map CInt.of_byte frame2 = [a mod 256; b mod 256] ++ repeat 0 70.
Proof.
  intros host t a b c d e f g h w.
  eexists _, _.
  split; [apply TemperSendCommand8_calls |].
  split.
  { cbn [frame_of command_buf_size List.length Nat.add Nat.mul Nat.sub repeat
         app map]. rewrite !of_byte_to_byte. reflexivity. }
  split; [apply TemperSendCommand2_calls |].
  cbn [frame_of command_buf_size List.length Nat.add Nat.mul Nat.sub repeat
       app map]. rewrite !of_byte_to_byte. reflexivity.
Qed.

(** X5: [TemperSendCommand2] with [a] and [b] puts the same 72 bytes on
    the wire as [TemperSendCommand8] with [a], [b] and six zeros; the two
    transfers differ in value and index only (0x201, 0x00 against 0x200,
    0x01). *)
Theorem X5_send2_frame_is_send8_frame_with_zeros :
  forall host t a b w,
    exists frame,
      calls (snd (TemperSendCommand2 host t a b w))
      = calls w ++ [Call_usb_control_msg (handle t) 0x21 9 0x201 0x00 frame
                      72 (timeout t)]
      /\ calls (snd (TemperSendCommand8 host t a b 0 0 0 0 0 0 w))
         = calls w ++ [Call_usb_control_msg (handle t) 0x21 9 0x200 0x01 frame
                         72 (timeout t)]
      /\ List.length frame = 72%nat.
Proof.
  intros host t a b w.
  exists (frame_of [CInt.to_byte a; CInt.to_byte b]).
  split; [apply TemperSendCommand2_calls |].
  split; [| reflexivity].
  rewrite TemperSendCommand8_calls. reflexivity.
Qed.

(** ** The decoded temperature *)

Lemma of_byte_range (b : byte) : 0 <= CInt.of_byte b < 256.
Proof.
  unfold CInt.of_byte. pose proof (Byte.to_N_bounded b) as H.
  apply N2Z.inj_le in H. pose proof (N2Z.is_nonneg (Byte.to_N b)).
  change (Z.of_N 255) with 255 in H. lia.
Qed.

Lemma of_byte_inj (b b' : byte) : CInt.of_byte b = CInt.of_byte b' -> b = b'.
Proof.
  intros E. rewrite <- (to_byte_of_byte b), <- (to_byte_of_byte b').
  now rewrite E.
Qed.

Lemma to_signed_8_of_byte (b : byte) :
  CInt.to_signed 8 (CInt.of_byte b)
  = if CInt.of_byte b <? 128 then CInt.of_byte b else CInt.of_byte b - 256.
Proof.
  unfold CInt.to_signed. change (2 ^ 8) with 256.
  change (2 ^ (8 - 1)) with 128.
  rewrite Z.mod_small by apply of_byte_range. reflexivity.
Qed.

(** The word of two bytes, arithmetically. *)
Lemma temper_word_value (high low : byte) :
  temper_word high low
  = 256 * CInt.to_signed 8 (CInt.of_byte high) + CInt.of_byte low.
Proof.
  pose proof (word_check_all high low) as H. unfold word_check in H.
  apply andb_true_iff in H as [_ H]. now apply Z.eqb_eq.
Qed.

Lemma spec_celsius_Q_256 (w : Z) : (spec_celsius_Q w == w # 256)%Q.
Proof.
  unfold spec_celsius_Q, Qeq, Qdiv, Qmult, Qinv, inject_Z. cbn. lia.
Qed.

Lemma Q256_split (s l : Z) :
  (256 * s + l # 256 == inject_Z s + (l # 256))%Q.
Proof. unfold Qeq, Qplus, inject_Z. cbn [Qnum Qden]. lia. Qed.

Lemma Q256_bounds (w : Z) :
  -32768 <= w < 32768 -> (- (128 # 1) <= w # 256)%Q /\ (w # 256 < 128 # 1)%Q.
Proof. intros H. unfold Qle, Qlt. cbn [Qnum Qden Qopp]. lia. Qed.

Lemma Q256_inj (a b : Z) : (a # 256 == b # 256)%Q -> a = b.
Proof. unfold Qeq. cbn [Qnum Qden]. lia. Qed.

(** The temperature of two bytes is their word divided by 256. *)
Lemma TemperByteToCelcius_value (t : Temper) (high low : byte) :
  exists q, to_Q (TemperByteToCelcius t high low) = Some q
            /\ (q == temper_word high low # 256)%Q.
Proof.
  pose proof (celsius_check_all high low) as H. unfold celsius_check in H.
  apply andb_true_iff in H as [_ H].
  rewrite (TemperByteToCelcius_any_temper t some_temper).
  destruct (to_Q (TemperByteToCelcius some_temper high low)) as [q|];
    [| discriminate].
  exists q. split; [reflexivity |].
  apply Qeq_bool_iff in H. rewrite H. apply spec_celsius_Q_256.
Qed.

(** X6: the temperature decoded from two bytes is the high byte, read as a
    signed number of whole degrees, plus the low byte in 256ths of a degree;
    it is a finite number from -128 up to, but not including, 128, and
    0x80 0x00 decodes to -128 itself. *)
Theorem X6_decoder_value_and_range :
  forall t high low,
    exists q,
      to_Q (TemperByteToCelcius t high low) = Some q
      /\ (q == inject_Z (CInt.to_signed 8 (CInt.of_byte high))
               + (CInt.of_byte low # 256))%Q
      /\ (- (128 # 1) <= q)%Q /\ (q < 128 # 1)%Q
      /\ -128 <= CInt.to_signed 8 (CInt.of_byte high) < 128
      /\ TemperByteToCelcius t x80 x00 = S754_finite true 8388608 (-16)
      /\ to_Q (S754_finite true 8388608 (-16)) = Some (-8388608 # 65536)
      /\ (-8388608 # 65536 == - (128 # 1))%Q.
Proof.
  intros t high low.
  destruct (TemperByteToCelcius_value t high low) as (q & Hq & Hv).
  pose proof (temper_word_value high low) as Hw.
  pose proof (of_byte_range high) as Hh. pose proof (of_byte_range low) as Hl.
  pose proof (to_signed_8_of_byte high) as Hs.
  assert (Hr : -128 <= CInt.to_signed 8 (CInt.of_byte high) < 128).
  { rewrite Hs. destruct (Z.ltb_spec (CInt.of_byte high) 128); lia. }
  exists q. split; [exact Hq |].
  split; [| split; [| split; [| split; [exact Hr |]]]].
  - rewrite Hv, Hw. apply Q256_split.
  - rewrite Hv, Hw. apply Q256_bounds. lia.
  - rewrite Hv, Hw. apply Q256_bounds. lia.
  - repeat split.
Qed.

(** X7: different byte pairs decode to different temperatures: the two
    bytes can be read back from the number. *)
Theorem X7_decoder_is_injective :
  forall t t' high low high' low',
    TemperByteToCelcius t high low = TemperByteToCelcius t' high' low' ->
    high = high' /\ low = low'.
Proof.
  intros t t' high low high' low' E.
  destruct (TemperByteToCelcius_value t high low) as (q & Hq & Hv).
  destruct (TemperByteToCelcius_value t' high' low') as (q' & Hq' & Hv').
  rewrite E, Hq' in Hq. injection Hq as <-.
  rewrite Hv' in Hv. apply Q256_inj in Hv.
  rewrite !temper_word_value in Hv.
  pose proof (of_byte_range high) as Hh. pose proof (of_byte_range low) as Hl.
  pose proof (of_byte_range high') as Hh'.
  pose proof (of_byte_range low') as Hl'.
  rewrite !to_signed_8_of_byte in Hv.
  split; apply of_byte_inj.
  - destruct (Z.ltb_spec (CInt.of_byte high) 128);
      destruct (Z.ltb_spec (CInt.of_byte high') 128); lia.
  - destruct (Z.ltb_spec (CInt.of_byte high) 128);
      destruct (Z.ltb_spec (CInt.of_byte high') 128); lia.
Qed.

Lemma X7_decoder_is_injective_witness : x01 = x01 /\ x90 = x90.
Proof.
  apply (X7_decoder_is_injective some_temper some_temper x01 x90 x01 x90).
  reflexivity.
Defined.

(** ** A full read *)

(** X8: when the array has its eight bytes and the host stores at least
    six, the reading is decoded from the bytes the host stored, at offsets
    (2,3) and (4,5), and nothing of what the array held before enters it. *)
Theorem X8_full_read_decodes_only_received_bytes :
  forall host t data stack_buf w,
    let received :=
      snd (host_interrupt_read host (calls w) (handle t) 0x82 8 (timeout t)) in
    List.length stack_buf = 8%nat ->
    (6 <= List.length received)%nat ->
    snd (fst (TemperGetData host t data stack_buf w))
    = {| tempA := TemperByteToCelcius t (at_index received 2)
                    (at_index received 3);
         tempB := TemperByteToCelcius t (at_index received 4)
                    (at_index received 5) |}.
Proof.
  intros host t data stack_buf w received Hstack Hrecv.
  destruct (TemperGetData_run host t data stack_buf w) as (w' & E & _).
  cbv zeta in E. rewrite E. cbn [fst snd]. unfold response_buf.
  fold received. rewrite Hstack.
  destruct received as [| b0 [| b1 [| b2 [| b3 [| b4 [| b5 rest]]]]]];
    cbn [List.length] in Hrecv; try lia.
  destruct rest as [| b6 [| b7 rest]]; reflexivity.
Qed.

Lemma X8_full_read_decodes_only_received_bytes_witness :
  snd (fst (TemperGetData
              (with_interrupt_read idle_host
                 (fun _ _ _ _ _ =>
                    (8, [x00; x00; x01; x90; xff; x70; x00; x00])))
              some_temper no_reading stale_stack boot))
  = {| tempA := TemperByteToCelcius some_temper x01 x90;
       tempB := TemperByteToCelcius some_temper xff x70 |}.
Proof.
  apply (X8_full_read_decodes_only_received_bytes
           (with_interrupt_read idle_host
              (fun _ _ _ _ _ => (8, [x00; x00; x01; x90; xff; x70; x00; x00])))
           some_temper no_reading stale_stack boot).
  - reflexivity.
  - cbn. lia.
Defined.

(** ** What is printed, and where *)

Section Streams.

Variable host : usb_host.

Lemma scan_products_stdout deviceNum timeout' dev ps : forall n w,
  stdout (snd (scan_products host deviceNum timeout' 0 dev ps n w)) = stdout w.
Proof.
  induction ps as [| p ps IH]; intros n w; cbn [scan_products].
  - reflexivity.
  - destruct (product_matches dev p); [| apply IH].
    unfold bind. cbn [CInt.truthy Z.eqb negb when ret].
    destruct (n =? deviceNum); [| apply IH].
    destruct (TemperCreate_run host dev timeout' 0 p w) as (w' & E & _ & _ & Q).
    rewrite E. cbn. apply Q. reflexivity.
Qed.

Lemma scan_devices_stdout deviceNum timeout' devs : forall n w,
  stdout (snd (scan_devices host deviceNum timeout' 0 devs n w)) = stdout w.
Proof.
  induction devs as [| dev devs IH]; intros n w; cbn [scan_devices].
  - reflexivity.
  - unfold bind. cbn [CInt.truthy Z.eqb negb when ret].
    pose proof (scan_products_stdout deviceNum timeout' dev ProductList n w)
      as H.
    destruct (scan_products host deviceNum timeout' 0 dev ProductList n w)
      as [[r | n'] w1]; cbn [snd] in H.
    + exact H.
    + rewrite IH. exact H.
Qed.

Lemma scan_busses_stdout deviceNum timeout' busses : forall n w,
  stdout (snd (scan_busses host deviceNum timeout' 0 busses n w)) = stdout w.
Proof.
  induction busses as [| bus busses IH]; intros n w; cbn [scan_busses].
  - reflexivity.
  - unfold bind.
    pose proof (scan_devices_stdout deviceNum timeout' (devices bus) n w) as H.
    destruct (scan_devices host deviceNum timeout' 0 (devices bus) n w)
      as [[r | n'] w1]; cbn [snd] in H.
    + exact H.
    + rewrite IH. exact H.
Qed.

Lemma TemperCreateFromDeviceNumber_stdout deviceNum timeout' w :
  stdout (snd (TemperCreateFromDeviceNumber host deviceNum timeout' 0 w))
  = stdout w.
Proof.
  unfold TemperCreateFromDeviceNumber, usb_get_busses, bind, ret.
  pose proof (scan_busses_stdout deviceNum timeout' (host_busses host) 0 w)
    as H.
  destruct (scan_busses host deviceNum timeout' 0 (host_busses host) 0 w)
    as [[r | n'] w1]; exact H.
Qed.

Lemma TemperCreateFromDeviceNumber_stderr deviceNum timeout' debug' w :
  stderr (snd (TemperCreateFromDeviceNumber host deviceNum timeout' debug' w))
  = stderr w.
Proof.
  pose proof (TemperCreateFromDeviceNumber_run host deviceNum timeout' debug' w)
    as H.
  destruct (select (matching (enumeration host)) deviceNum) as [dev|].
  - destruct H as (p & w0 & _ & (_ & Hs & _) & ->).
    destruct (TemperCreate_run host dev timeout' debug' p w0)
      as (w' & E & _ & S & _).
    rewrite E. cbn. congruence.
  - destruct H as (w' & (_ & Hs & _) & ->). exact Hs.
Qed.

Lemma TemperInterruptRead_quiet t buf len w :
  stdout (snd (TemperInterruptRead host (set_debug 0 t) buf len w)) = stdout w.
Proof.
  unfold TemperInterruptRead, bind, usb_interrupt_read.
  cbn [set_debug debug handle timeout CInt.truthy Z.eqb negb when ret].
  destruct (host_interrupt_read host (calls w) (handle t) 130 (CInt.int len)
              (timeout t)).
  reflexivity.
Qed.

Lemma TemperGetData_quiet t data stack_buf w :
  stdout (snd (TemperGetData host (set_debug 0 t) data stack_buf w)) = stdout w.
Proof.
  unfold TemperGetData, bind.
  pose proof (TemperInterruptRead_quiet t stack_buf 8 w) as H.
  destruct (TemperInterruptRead host (set_debug 0 t) stack_buf 8 w).
  exact H.
Qed.

End Streams.

(** X9: with the debug flag 0 no operation writes to stdout: not the
    matcher, the session open, the two send functions, the interrupt read or
    the poll; [TemperFree] never does. *)
Theorem X9_nothing_on_stdout_without_debug :
  forall host t w,
    (forall deviceNum timeout',
        stdout (snd (TemperCreateFromDeviceNumber host deviceNum timeout' 0 w))
        = stdout w)
    /\ (forall dev timeout' p,
          stdout (snd (TemperCreate host dev timeout' 0 p w)) = stdout w)
    /\ (forall a b c d e f g h,
          stdout (snd (TemperSendCommand8 host (set_debug 0 t) a b c d e f g h
                         w))
          = stdout w)
    /\ (forall a b,
          stdout (snd (TemperSendCommand2 host (set_debug 0 t) a b w))
          = stdout w)
    /\ (forall buf len,
          stdout (snd (TemperInterruptRead host (set_debug 0 t) buf len w))
          = stdout w)
    /\ (forall data stack_buf,
          stdout (snd (TemperGetData host (set_debug 0 t) data stack_buf w))
          = stdout w)
    /\ (forall r, stdout (snd (TemperFree r w)) = stdout w).
Proof.
  intros host t w.
  split; [| split; [| split; [| split; [| split; [| split]]]]].
  - intros. apply TemperCreateFromDeviceNumber_stdout.
  - intros dev timeout' p.
    destruct (TemperCreate_run host dev timeout' 0 p w) as (w' & E & _ & _ & Q).
    rewrite E. apply Q. reflexivity.
  - intros a b c d e f g h.
    destruct (TemperSendCommand8_run host (set_debug 0 t) a b c d e f g h w)
      as (w1 & _ & Q & E).
    cbv zeta in E. rewrite E. rewrite (Q eq_refl).
    destruct (CInt.int _ =? 72); reflexivity.
  - intros a b.
    destruct (TemperSendCommand2_run host (set_debug 0 t) a b w)
      as (w1 & _ & Q & E).
    cbv zeta in E. rewrite E. rewrite (Q eq_refl).
    destruct (CInt.int _ =? 72); reflexivity.
  - intros. apply TemperInterruptRead_quiet.
  - intros. apply TemperGetData_quiet.
  - intros [t'|]; reflexivity.
Qed.

(** X10: stderr is written by the send functions alone, and by them only
    when they fail: a send returns 0 and leaves stderr as it was, or
    returns -1 after one [perror] line carrying the errno of that moment;
    the matcher, the session open, the interrupt read, the poll and
    [TemperFree] leave stderr as it was, with or without the debug flag. *)
Theorem X10_stderr_only_from_failed_sends :
  forall host t w,
    (forall deviceNum timeout' debug',
        stderr (snd (TemperCreateFromDeviceNumber host deviceNum timeout'
                       debug' w))
        = stderr w)
    /\ (forall dev timeout' debug' p,
          stderr (snd (TemperCreate host dev timeout' debug' p w)) = stderr w)
    /\ (forall buf len,
          stderr (snd (TemperInterruptRead host t buf len w)) = stderr w)
    /\ (forall data stack_buf,
          stderr (snd (TemperGetData host t data stack_buf w)) = stderr w)
    /\ (forall r, stderr (snd (TemperFree r w)) = stderr w)
    /\ (forall a b c d e f g h,
          let run := TemperSendCommand8 host t a b c d e f g h w in
          (fst run = 0 /\ stderr (snd run) = stderr w)
          \/ (fst run = -1
              /\ stderr (snd run)
                 = stderr w ++ [("usb_control_msg failed"%string, errno w)]))
    /\ (forall a b,
          let run := TemperSendCommand2 host t a b w in
          (fst run = 0 /\ stderr (snd run) = stderr w)
          \/ (fst run = -1
              /\ stderr (snd run)
                 = stderr w ++ [("usb_control_msg failed"%string, errno w)])).
Proof.
  intros host t w.
  split; [| split; [| split; [| split; [| split; [| split]]]]].
  - intros. apply TemperCreateFromDeviceNumber_stderr.
  - intros dev timeout' debug' p.
    destruct (TemperCreate_run host dev timeout' debug' p w)
      as (w' & E & _ & S & _).
    rewrite E. exact S.
  - intros buf len.
    destruct (TemperInterruptRead_run host t buf len w) as (w' & E & _ & S & _).
    rewrite E. exact S.
  - intros data stack_buf.
    destruct (TemperGetData_run host t data stack_buf w) as (w' & E & _ & S & _).
    cbv zeta in E. rewrite E. exact S.
  - intros [t'|]; reflexivity.
  - intros a b c d e f g h run. subst run.
    destruct (TemperSendCommand8_run host t a b c d e f g h w)
      as (w1 & (_ & Hs & He) & _ & E).
    cbv zeta in E. rewrite E.
    destruct (CInt.int _ =? 72); [left | right]; cbn; rewrite Hs, ?He; auto.
  - intros a b run. subst run.
    destruct (TemperSendCommand2_run host t a b w)
      as (w1 & (_ & Hs & He) & _ & E).
    cbv zeta in E. rewrite E.
    destruct (CInt.int _ =? 72); [left | right]; cbn; rewrite Hs, ?He; auto.
Qed.

(** ** The session the matcher returns *)

Lemma open_steps_success host dev cs h :
  fst (open_steps host dev cs) = Some h -> host_open host cs dev = Some h.
Proof.
  intros H. destruct (open_steps_shape host dev cs) as (new & _ & Hs).
  destruct (host_open host cs dev) as [h'|].
  - destruct Hs as (mid & _ & _ & [[Hr _] | [Hr _]]); congruence.
  - destruct Hs as [Hr _]. congruence.
Qed.

Lemma lookup_sound vendorId productId p :
  lookup vendorId productId = Some p ->
  In p ProductList /\ vendorId = vendor p /\ productId = id p.
Proof.
  unfold lookup. intros H. apply find_some in H as [Hin Hm].
  unfold ids_match in Hm. apply andb_true_iff in Hm as [Hv Hp].
  apply Z.eqb_eq in Hv. apply Z.eqb_eq in Hp. auto.
Qed.

(** X11: a session that [TemperCreateFromDeviceNumber] returns is for the
    match numbered [deviceNum], which is not negative: its device is in the
    enumeration, its product is the registry entry with the identifiers of
    that device, its timeout and debug flag are the arguments, its handle
    is the one [usb_open] answered for that device, and no other device
    was opened on the way. *)
Theorem X11_matched_session_fields :
  forall host deviceNum timeout' debug' w t,
    let run := TemperCreateFromDeviceNumber host deviceNum timeout' debug' w in
    fst run = Some t ->
    0 <= deviceNum
    /\ select (matching (enumeration host)) deviceNum = Some (device t)
    /\ In (device t) (enumeration host)
    /\ In (product t) ProductList
    /\ idVendor (device t) = vendor (product t)
    /\ idProduct (device t) = id (product t)
    /\ timeout t = timeout' /\ debug t = debug'
    /\ host_open host (calls w) (device t) = Some (handle t)
    /\ exists new,
         calls (snd run) = calls w ++ new
         /\ filter is_open new = [Call_usb_open (device t)]
         /\ filter is_close new = [].
Proof.
  intros host deviceNum timeout' debug' w t run Hrun. subst run.
  pose proof (TemperCreateFromDeviceNumber_run host deviceNum timeout' debug' w)
    as H.
  destruct (select (matching (enumeration host)) deviceNum) as [dev|] eqn:Hsel.
  2: { destruct H as (w' & _ & E). rewrite E in Hrun. discriminate. }
  destruct H as (p & w0 & Hl & (Hc & _) & E).
  destruct (TemperCreate_run host dev timeout' debug' p w0)
    as (w' & E' & C' & _).
  rewrite E, E' in *. cbn [fst snd] in *. rewrite Hc in *.
  destruct (fst (open_steps host dev (calls w))) as [h|] eqn:Hh;
    [| discriminate].
  cbn in Hrun. injection Hrun as <-. cbn [device product timeout debug handle].
  apply lookup_sound in Hl as (Hin & Hv & Hp).
  pose proof (select_In _ _ _ Hsel) as Hdev. apply filter_In in Hdev as [Hdev _].
  split.
  { destruct (Z_lt_le_dec deviceNum 0) as [Hneg |]; [| assumption].
    rewrite (select_negative _ _ Hneg) in Hsel. discriminate. }
  repeat (split; [assumption || reflexivity |]).
  split; [exact (open_steps_success _ _ _ _ Hh) |].
  destruct (open_steps_shape host dev (calls w)) as (new & Hn & Hs).
  exists new. rewrite C'. split; [exact Hn |].
  destruct (host_open host (calls w) dev) as [h'|].
  - destruct Hs as (mid & Hcl & Hop & [[Hr Hnew] | [Hr Hnew]]);
      [| congruence].
    subst new. cbn. rewrite Hop, Hcl. split; reflexivity.
  - destruct Hs as [Hr _]. congruence.
Qed.

Lemma X11_matched_session_fields_witness :
  select (matching (enumeration three_sensor_host)) 1
  = Some {| dev_addr := 3; idVendor := 0x0c45; idProduct := 0x7402 |}.
Proof.
  refine (proj1 (proj2 (X11_matched_session_fields three_sensor_host 1 1000 0
                          boot
                          {| device := {| dev_addr := 3; idVendor := 0x0c45;
                                          idProduct := 0x7402 |};
                             handle := 103; debug := 0; timeout := 1000;
                             product := {| vendor := 0x0c45; id := 0x7402;
                                           name := "RDing TEMPerHumiV1.1" |}
                          |} _))).
  vm_compute. reflexivity.
Defined.

(** ** The debug dump of a response *)

Lemma dump_bytes_stdout buf k : forall i w,
  stdout (snd (dump_bytes buf i k w))
  = stdout w
      ++ flat_map
           (fun j =>
              byte_line buf j
              :: (if (Z.of_nat j + 1) mod 8 =? 0
                  then [("\n"%string, [])] else []))
           (seq i k).
Proof.
  induction k as [| k IH]; intros i w.
  - cbn. now rewrite app_nil_r.
  - cbn [dump_bytes seq flat_map]. unfold bind. cbn [printf].
    destruct ((Z.of_nat i + 1) mod 8 =? 0); cbn [when printf ret];
      rewrite IH; cbn [stdout]; unfold byte_line;
      repeat rewrite <- app_assoc; reflexivity.
Qed.

(** X12: with the debug flag set, [TemperInterruptRead] prints that it
    reads, the count the read answered, the first [ret] bytes of the
    buffer in order with a line break after every eighth, and a final line
    break; for a count of 0 or an error no byte is printed. *)
Theorem X12_debug_dump_lists_the_bytes_read :
  forall host t buf len w,
    debug t <> 0 ->
    let run := TemperInterruptRead host t buf len w in
    let count := fst (fst run) in
    let rows := dump_rows (snd (fst run)) (Z.to_nat count) in
    stdout (snd run)
    = stdout w
        ++ [("interrupt read\n"%string, []);
            ("receiving %d bytes\n"%string, [arg_int count])]
        ++ rows ++ [("\n"%string, [])]
    /\ filter is_byte_line rows
       = map (byte_line (snd (fst run))) (seq 0 (Z.to_nat count))
    /\ (if count <=? 0 then rows = [] else rows <> []).
Proof.
  intros host t buf len w Hdebug run count rows.
  assert (Hrows : forall b n,
             filter is_byte_line (dump_rows b n) = map (byte_line b) (seq 0 n)).
  { intros b n. unfold dump_rows. generalize 0%nat as i.
    induction n as [| n IH]; intros i; [reflexivity |].
    cbn [seq flat_map map]. rewrite filter_app, IH.
    destruct ((Z.of_nat i + 1) mod 8 =? 0); reflexivity. }
  split; [| split].
  - subst rows count run.
    unfold TemperInterruptRead, bind, usb_interrupt_read.
    assert (Ht : CInt.truthy (debug t) = true).
    { unfold CInt.truthy. apply negb_true_iff. now apply Z.eqb_neq. }
    rewrite Ht. cbn [when printf calls].
    destruct (host_interrupt_read host (calls w) (handle t) 130 (CInt.int len)
              (timeout t))
      as [r data].
    cbn [fst snd]. unfold bind. cbn [printf record_call].
    match goal with |- context [dump_bytes ?b ?i ?k ?x] =>
      pose proof (dump_bytes_stdout b k i x) as Hd;
      destruct (dump_bytes b i k x) as [[] w2] end.
    unfold printf, ret, record_call in *. cbn [snd fst stdout] in *.
    rewrite Hd. unfold dump_rows.
    repeat rewrite <- app_assoc. reflexivity.
  - apply Hrows.
  - subst rows. destruct (Z.leb_spec count 0) as [Hle | Hgt].
    + replace (Z.to_nat count) with 0%nat by lia. reflexivity.
    + destruct (Z.to_nat count) as [| n] eqn:En; [lia |].
      unfold dump_rows. cbn [seq flat_map]. discriminate.
Qed.

Lemma X12_debug_dump_lists_the_bytes_read_witness :
  stdout (snd (TemperInterruptRead
                 (with_interrupt_read idle_host
                    (fun _ _ _ _ _ =>
                       (8, [x00; x00; x01; x90; xff; x70; x00; x00])))
                 (set_debug 1 some_temper) stale_stack 8 boot))
  = [("interrupt read\n"%string, []);
     ("receiving %d bytes\n"%string, [arg_int 8]);
     ("%02x "%string, [arg_int 0]); ("%02x "%string, [arg_int 0]);
     ("%02x "%string, [arg_int 1]); ("%02x "%string, [arg_int 144]);
     ("%02x "%string, [arg_int 255]); ("%02x "%string, [arg_int 112]);
     ("%02x "%string, [arg_int 0]); ("%02x "%string, [arg_int 0]);
     ("\n"%string, []); ("\n"%string, [])].
Proof.
  refine (proj1 (X12_debug_dump_lists_the_bytes_read
                   (with_interrupt_read idle_host
                      (fun _ _ _ _ _ =>
                         (8, [x00; x00; x01; x90; xff; x70; x00; x00])))
                   (set_debug 1 some_temper) stale_stack 8 boot _)).
  cbn. discriminate.
Defined.

(** ** The calls of a poll *)

(** X13: a poll makes exactly one libusb call, whatever the read answers:
    the interrupt read of 8 bytes from endpoint 0x82 with the handle and
    the timeout of the session.  It sends no command and does not read
    again; [TemperInterruptRead] likewise makes the one read, of the length
    it is given converted from [unsigned int] to [int]: a length of
    [2^32 - 1] asks libusb for -1 bytes. *)
Theorem X13_poll_is_one_interrupt_read :
  forall host t data stack_buf w,
    calls (snd (TemperGetData host t data stack_buf w))
    = calls w ++ [Call_usb_interrupt_read (handle t) 0x82 8 (timeout t)]
    /\ (forall buf len,
          calls (snd (TemperInterruptRead host t buf len w))
          = calls w
              ++ [Call_usb_interrupt_read (handle t) 0x82 (CInt.int len)
                    (timeout t)]
          /\ fst (fst (TemperInterruptRead host t buf len w))
             = CInt.int (fst (host_interrupt_read host (calls w) (handle t)
                                0x82 (CInt.int len) (timeout t))))
    /\ CInt.int 8 = 8 /\ CInt.int 4294967295 = -1.
Proof.
  intros host t data stack_buf w. split; [| split; [| split; reflexivity]].
  - destruct (TemperGetData_run host t data stack_buf w) as (w' & E & C & _).
    cbv zeta in E. rewrite E. exact C.
  - intros buf len.
    destruct (TemperInterruptRead_run host t buf len w) as (w' & E & C & _).
    rewrite E. cbn [fst snd]. split; [exact C |].
    unfold usb_interrupt_read.
    destruct (host_interrupt_read host (calls w) (handle t) 130 (CInt.int len)
              (timeout t))
      as [r stored].
    reflexivity.
Qed.
